(** * create_project.py: the provisioning script, its text edits and its
      fail-fast sequencing

    The script [src/create_project.py] is a flat sequence of statements:
    external commands started with [subprocess.run(..., check=True)],
    literal files written with [open(..., "w")], and three in-place text
    edits ([.env], [composer.json], [vite.config.js]).  This development
    embeds the text edits as functions on Python strings and the statement
    sequence as actions of a small exception-and-state monad, and proves the
    properties the specification states about them. *)

From Stdlib Require Import List Arith NArith ZArith Bool Lia String Ascii.
Import ListNotations.

(** ** Python strings

    A Python [str] is a sequence of Unicode code points.  A code point is a
    number [N]; literals of the source are written [py "..."]. *)

Module PyStr.

Abbreviation char := N (only parsing).
Abbreviation str := (list N) (only parsing).

Definition py (s : string) : str := map N_of_ascii (list_ascii_of_string s).

Definition LF : char := 10%N.
Definition nl : str := [LF].

(** [str.isspace] on one code point: the code points CPython's
    [_PyUnicode_IsWhitespace] accepts. *)
Definition isspace (c : char) : bool :=
  ((9 <=? c) && (c <=? 13) || (28 <=? c) && (c <=? 32)
   || (c =? 133) || (c =? 160) || (c =? 5760)
   || (8192 <=? c) && (c <=? 8202)
   || (c =? 8232) || (c =? 8233) || (c =? 8239) || (c =? 8287)
   || (c =? 12288))%N.

Fixpoint lstrip (s : str) : str :=
  match s with
  | [] => []
  | c :: s' => if isspace c then lstrip s' else s
  end.

Definition rstrip (s : str) : str := rev (lstrip (rev s)).

(** [s.strip()] *)
Definition strip (s : str) : str := rstrip (lstrip s).

(** [s.startswith(p)] *)
Fixpoint startswith (s p : str) : bool :=
  match p, s with
  | [], _ => true
  | _ :: _, [] => false
  | x :: p', y :: s' => (x =? y)%N && startswith s' p'
  end.

(** [p in s] *)
Fixpoint contains (p s : str) : bool :=
  startswith s p ||
  match s with
  | [] => false
  | _ :: s' => contains p s'
  end.

(** [f.readlines()] on the decoded text of a file: every line keeps its
    terminating ["\n"]; only the last line may lack one. *)
Fixpoint readlines (s : str) : list str :=
  match s with
  | [] => []
  | c :: s' =>
      if (c =? LF)%N then [c] :: readlines s'
      else match readlines s' with
           | [] => [[c]]
           | l :: ls => (c :: l) :: ls
           end
  end.

(** [f.writelines(lines)] followed by reading the text back. *)
Definition writelines (lines : list str) : str := List.concat lines.

(** Python's [s.replace(old, new)]: occurrences of [old] are found from
    left to right and do not overlap.  [skip] counts the characters of a
    matched occurrence that are still to be dropped. *)
Fixpoint replace_from (old new : str) (skip : nat) (s : str) : str :=
  match s with
  | [] => []
  | c :: s' =>
      match skip with
      | S k => replace_from old new k s'
      | O =>
          if startswith s old
          then new ++ replace_from old new (List.length old - 1) s'
          else c :: replace_from old new 0 s'
      end
  end.

Definition replace (s old new : str) : str :=
  match old with
  | [] => new ++ flat_map (fun c => c :: new) s
  | _ :: _ => replace_from old new 0 s
  end.

End PyStr.

Import PyStr.

(** ** The [.env] update (source lines 110-156) *)

Module Env.

(** The body of [for line in lines]: the line appended to [updated_lines]. *)
Definition env_line (line : str) : str :=
  let stripped := strip line in
  if startswith stripped (py "DB_CONNECTION") then
    if contains (py "=mysql") stripped || contains (py "=sqlite") stripped
    then py "DB_CONNECTION=pgsql" ++ nl
    else line
  else if startswith stripped (py "#") && contains (py "DB_HOST") stripped
  then py "DB_HOST=pgsql" ++ nl
  else if startswith stripped (py "#") && contains (py "DB_PORT") stripped
  then py "DB_PORT=5432" ++ nl
  else if startswith stripped (py "#") && contains (py "DB_DATABASE") stripped
  then py "DB_DATABASE=laravel" ++ nl
  else if startswith stripped (py "#") && contains (py "DB_USERNAME") stripped
  then py "DB_USERNAME=sail" ++ nl
  else if startswith stripped (py "#") && contains (py "DB_PASSWORD") stripped
  then py "DB_PASSWORD=password" ++ nl
  else if startswith stripped (py "DB_HOST=") then py "DB_HOST=pgsql" ++ nl
  else if startswith stripped (py "DB_PORT=") then py "DB_PORT=5432" ++ nl
  else if startswith stripped (py "DB_DATABASE=")
  then py "DB_DATABASE=laravel" ++ nl
  else if startswith stripped (py "DB_USERNAME=")
  then py "DB_USERNAME=sail" ++ nl
  else if startswith stripped (py "DB_PASSWORD=")
  then py "DB_PASSWORD=password" ++ nl
  else line.

(** The loop: [updated_lines] grows by one line per input line. *)
Fixpoint update_loop (lines updated_lines : list str) : list str :=
  match lines with
  | [] => updated_lines
  | line :: rest => update_loop rest (updated_lines ++ [env_line line])
  end.

(** Text of [.env] after the step, from its text before. *)
Definition update_env (content : str) : str :=
  let lines := readlines content in
  let updated_lines := update_loop lines [] in
  writelines updated_lines.

End Env.

(** ** The [composer.json] update (source lines 168-181) *)

Module Composer.

Definition php_artisan : str := py "php artisan".
Definition sail_artisan : str := py "./vendor/bin/sail artisan".

(** Text of [composer.json] after the step, from its text before. *)
Definition update_composer (composer_content : str) : str :=
  replace composer_content php_artisan sail_artisan.

End Composer.

(** ** The [vite.config.js] update (source lines 218-243) *)

Module Vite.

Definition vue_import : str := py "import vue from '@vitejs/plugin-vue'".
Definition laravel_import : str :=
  py "import laravel from 'laravel-vite-plugin';".
Definition laravel_vue_import : str :=
  py "import laravel from 'laravel-vite-plugin';" ++ nl ++
  py "import vue from '@vitejs/plugin-vue';".
Definition vue_call : str := py "vue({".
Definition laravel_call : str := py "        laravel({".
Definition vue_laravel_call : str :=
  py "        vue({" ++ nl ++
  py "            template: {" ++ nl ++
  py "                transformAssetUrls: {" ++ nl ++
  py "                    base: null," ++ nl ++
  py "                    includeAbsolute: false," ++ nl ++
  py "                }," ++ nl ++
  py "            }," ++ nl ++
  py "        })," ++ nl ++
  py "        laravel({".

(** Text of [vite.config.js] after the step, from its text before. *)
Definition update_vite (vite_content : str) : str :=
  if negb (contains vue_import vite_content) then
    let vite_content := replace vite_content laravel_import laravel_vue_import in
    if negb (contains vue_call vite_content)
    then replace vite_content laravel_call vue_laravel_call
    else vite_content
  else vite_content.

End Vite.

(** ** The script as a sequence of statements

    The operating system is a parameter: its state [os], what a child
    process does to it, and what each file operation does or refuses.  A
    statement is an action that may raise; [run_all] is the sequencing of
    top-level statements, which the script never wraps in [try]. *)

Module Pipeline.

Import Env Composer Vite.

Inductive command :=
| Argv (args : list str)          (* subprocess.run([...], check=True) *)
| Shell (line : str).             (* subprocess.run("...", shell=True, check=True) *)

Inductive proc_result :=
| Exited (returncode : Z)
| LaunchFailed.

Inductive exn :=
| CalledProcessError (c : command) (returncode : Z)
| OSError (path : str)
| EOFError.

Inductive event :=
| Asked (prompt : str)
| Printed (s : str)
| Spawned (c : command)
| Chdir (path : str)
| Tested (path : str)
| Opened (path : str) (mode : str)
| Listed (path : str)
| Unlinked (path : str)
| Rmtree (path : str)
| Mkdir (path : str).

Inductive outcome (A : Type) :=
| Ok (a : A)
| Raised (e : exn).
Arguments Ok {A} a.
Arguments Raised {A} e.

Record System (os : Type) := {
  spawn : command -> os -> proc_result * os;
  read_input : os -> option str * os;
  joinpath : str -> str -> str;
  chdir : str -> os -> option os;
  path_exists : str -> os -> bool;
  is_file : str -> os -> bool;
  is_dir : str -> os -> bool;
  read_text : str -> os -> option str;
  write_text : str -> str -> os -> option os;
  iterdir : str -> os -> option (list str);
  unlink : str -> os -> option os;
  rmtree : str -> os -> option os;
  mkdir_parents : str -> os -> option os
}.
Arguments spawn {os}.
Arguments read_input {os}.
Arguments joinpath {os}.
Arguments chdir {os}.
Arguments path_exists {os}.
Arguments is_file {os}.
Arguments is_dir {os}.
Arguments read_text {os}.
Arguments write_text {os}.
Arguments iterdir {os}.
Arguments unlink {os}.
Arguments rmtree {os}.
Arguments mkdir_parents {os}.

Record world (os : Type) := {
  sys : os;
  trace : list event
}.
Arguments sys {os}.
Arguments trace {os}.

Section Script.

Context {os : Type} (S : System os).

(** The directory of the script and the literal file contents it writes;
    the properties below hold whatever they are. *)
Variable script_dir : str.
Variables docker_compose_content app_css_content app_blade_content
  bootstrap_app_content app_js_content web_routes_content
  welcome_vue_content : str.

Definition M (A : Type) : Type := world os -> outcome A * world os.

Definition ret {A} (a : A) : M A := fun w => (Ok a, w).

Definition bind {A B} (c : M A) (k : A -> M B) : M B :=
  fun w => match c w with
           | (Ok a, w') => k a w'
           | (Raised e, w') => (Raised e, w')
           end.

Notation "x <- c ;; k" := (bind c (fun x => k))
  (at level 61, c at next level, right associativity).
Notation "c ;; k" := (bind c (fun _ => k))
  (at level 61, right associativity).

Definition log (e : event) (s : os) (w : world os) : world os :=
  {| sys := s; trace := trace w ++ [e] |}.

(** A file operation that returns nothing: done, or refused with an error. *)
Definition attempt (e : event) (path : str) (op : os -> option os) : M unit :=
  fun w => match op (sys w) with
           | Some s => (Ok tt, log e s w)
           | None => (Raised (OSError path), log e (sys w) w)
           end.

Definition input (prompt : str) : M str :=
  fun w => match read_input S (sys w) with
           | (Some line, s) => (Ok line, log (Asked prompt) s w)
           | (None, s) => (Raised EOFError, log (Asked prompt) s w)
           end.

Definition print (s : str) : M unit :=
  fun w => (Ok tt, log (Printed s) (sys w) w).

(** [subprocess.run(c, check=True)]: the child runs to its end; a return
    code other than zero raises, and so does a command that cannot be
    started. *)
Definition subprocess_run (c : command) : M unit :=
  fun w => match spawn S c (sys w) with
           | (Exited 0, s) => (Ok tt, log (Spawned c) s w)
           | (Exited returncode, s) =>
               (Raised (CalledProcessError c returncode), log (Spawned c) s w)
           | (LaunchFailed, s) =>
               (Raised (OSError match c with
                                | Argv args => hd [] args
                                | Shell line => line
                                end), log (Spawned c) s w)
           end.

Definition os_chdir (path : str) : M unit :=
  attempt (Chdir path) path (chdir S path).

Definition exists_ (path : str) : M bool :=
  fun w => (Ok (path_exists S path (sys w)), log (Tested path) (sys w) w).

Definition is_file_ (path : str) : M bool :=
  fun w => (Ok (is_file S path (sys w)), log (Tested path) (sys w) w).

Definition is_dir_ (path : str) : M bool :=
  fun w => (Ok (is_dir S path (sys w)), log (Tested path) (sys w) w).

(** [with open(path, "r") as f: f.read()] *)
Definition read_file (path : str) : M str :=
  fun w => match read_text S path (sys w) with
           | Some content => (Ok content, log (Opened path (py "r")) (sys w) w)
           | None => (Raised (OSError path), log (Opened path (py "r")) (sys w) w)
           end.

(** [with open(path, "w") as f: f.write(content)] *)
Definition write_file (path content : str) : M unit :=
  attempt (Opened path (py "w")) path (write_text S path content).

Definition unlink_ (path : str) : M unit :=
  attempt (Unlinked path) path (unlink S path).

Definition rmtree_ (path : str) : M unit :=
  attempt (Rmtree path) path (rmtree S path).

Definition mkdir_ (path : str) : M unit :=
  attempt (Mkdir path) path (mkdir_parents S path).

Definition iterdir_ (path : str) : M (list str) :=
  fun w => match iterdir S path (sys w) with
           | Some files => (Ok files, log (Listed path) (sys w) w)
           | None => (Raised (OSError path), log (Listed path) (sys w) w)
           end.

(** Top-level statements, one after the other. *)
Fixpoint run_all (statements : list (M unit)) : M unit :=
  match statements with
  | [] => ret tt
  | s :: rest => s ;; run_all rest
  end.

(** [if env_file.exists(): ... else: print("Warning: ...")] *)
Definition update_env_file : M unit :=
  found <- exists_ (py ".env") ;;
  if found then
    content <- read_file (py ".env") ;;
    write_file (py ".env") (update_env content) ;;
    print (py ".env file updated successfully")
  else print (py "Warning: .env file not found").

Definition update_composer_file : M unit :=
  found <- exists_ (py "composer.json") ;;
  if found then
    composer_content <- read_file (py "composer.json") ;;
    write_file (py "composer.json") (update_composer composer_content) ;;
    print (py "composer.json updated successfully")
  else print (py "Warning: composer.json file not found").

Definition update_vite_file : M unit :=
  found <- exists_ (py "vite.config.js") ;;
  if found then
    vite_content <- read_file (py "vite.config.js") ;;
    write_file (py "vite.config.js") (update_vite vite_content) ;;
    print (py "vite.config.js updated successfully")
  else print (py "Warning: vite.config.js file not found").

Definition write_app_css : M unit :=
  found <- exists_ (py "resources/css/app.css") ;;
  if found then
    write_file (py "resources/css/app.css") app_css_content ;;
    print (py "resources/css/app.css updated successfully")
  else
    mkdir_ (py "resources/css") ;;
    write_file (py "resources/css/app.css") app_css_content ;;
    print (py "resources/css/app.css created successfully").

(** [for file in views_dir.iterdir(): ...] *)
Fixpoint clear_files (files : list str) : M unit :=
  match files with
  | [] => ret tt
  | file :: rest =>
      (f <- is_file_ file ;;
       if f then unlink_ file
       else d <- is_dir_ file ;;
            if d then rmtree_ file else ret tt) ;;
      clear_files rest
  end.

Definition clear_views : M unit :=
  found <- exists_ (py "resources/views") ;;
  if found then
    files <- iterdir_ (py "resources/views") ;;
    clear_files files
  else mkdir_ (py "resources/views").

(** [if p.exists(): p.unlink()] *)
Definition unlink_if_exists (path : str) : M unit :=
  found <- exists_ path ;;
  if found then unlink_ path else ret tt.

(** The statements of the script after [project_name = input(...)]. *)
Definition script (project_name : str) : list (M unit) :=
  [ print (py "Installing Laravel installer...");
    subprocess_run
      (Argv [py "composer"; py "global"; py "require"; py "laravel/installer"]);
    print (py "Laravel installer installed successfully");
    print (py "Creating Laravel project '" ++ project_name ++ py "'...");
    os_chdir script_dir;
    subprocess_run
      (Shell (py "laravel new " ++ project_name ++
              py " --pest --boost --npm --no-interaction"));
    print (py "Laravel project '" ++ project_name ++
           py "' created successfully");
    os_chdir (joinpath S script_dir project_name);
    print (py "Installing Laravel Sail...");
    subprocess_run
      (Argv [py "composer"; py "require"; py "laravel/sail"; py "--dev"]);
    print (py "Laravel Sail installed successfully");
    print (py "Creating docker-compose.yml with PostgreSQL...");
    write_file (py "docker-compose.yml") docker_compose_content;
    print (py "docker-compose.yml created successfully");
    print (py "Updating .env file with PostgreSQL configuration...");
    update_env_file;
    print (py "Starting Sail containers...");
    subprocess_run (Argv [py "./vendor/bin/sail"; py "up"; py "-d"]);
    print (py "Sail containers started successfully");
    print (py "Running database migrations...");
    subprocess_run (Argv [py "./vendor/bin/sail"; py "artisan"; py "migrate"]);
    print (py "Database migrations completed successfully");
    print (py "Updating composer.json scripts...");
    update_composer_file;
    print (py "Installing Inertia.js Laravel adapter...");
    subprocess_run
      (Argv [py "./vendor/bin/sail"; py "composer"; py "require";
             py "inertiajs/inertia-laravel"]);
    print (py "Inertia.js Laravel adapter installed successfully");
    print (py "Installing Vue and dependencies...");
    subprocess_run
      (Argv [py "./vendor/bin/sail"; py "npm"; py "install"; py "vue";
             py "@vitejs/plugin-vue"; py "@inertiajs/vue3"]);
    print (py "Vue and dependencies installed successfully");
    print (py "Installing Tailwind CSS 4...");
    subprocess_run
      (Argv [py "./vendor/bin/sail"; py "npm"; py "install"; py "-D";
             py "tailwindcss"; py "@tailwindcss/vite"]);
    print (py "Tailwind CSS 4 installed successfully");
    print (py "Updating resources/css/app.css...");
    write_app_css;
    print (py "Updating vite.config.js...");
    update_vite_file;
    print (py "Setting up Inertia views...");
    clear_views;
    write_file (py "resources/views/app.blade.php") app_blade_content;
    print (py "app.blade.php created successfully");
    print (py "Installing Inertia middleware...");
    subprocess_run
      (Argv [py "./vendor/bin/sail"; py "artisan"; py "inertia:middleware"]);
    print (py "Inertia middleware installed successfully");
    print (py "Updating bootstrap/app.php...");
    unlink_if_exists (py "bootstrap/app.php");
    write_file (py "bootstrap/app.php") bootstrap_app_content;
    print (py "bootstrap/app.php updated successfully");
    print (py "Updating resources/js/app.js...");
    unlink_if_exists (py "resources/js/app.js");
    write_file (py "resources/js/app.js") app_js_content;
    print (py "resources/js/app.js updated successfully");
    print (py "Updating routes/web.php...");
    unlink_if_exists (py "routes/web.php");
    write_file (py "routes/web.php") web_routes_content;
    print (py "routes/web.php updated successfully");
    print (py "Creating directories...");
    mkdir_ (py "resources/js/Pages");
    mkdir_ (py "resources/js/Components");
    mkdir_ (py "resources/js/Layouts");
    print (py "Directories created successfully");
    print (py "Creating Welcome.vue...");
    write_file (py "resources/js/Pages/Welcome.vue") welcome_vue_content;
    print (py "Welcome.vue created successfully");
    print (nl ++ py "Setup complete! Your Laravel project '" ++ project_name ++
           py "' is ready.") ].

(** The whole script. *)
Definition main : M unit :=
  project_name <- input (py "Project name: ") ;;
  run_all (script project_name).

End Script.

End Pipeline.

(** ** Notions used to state the properties *)

Module Notions.

(** [Replaced old new s r]: [r] is [s] with the occurrences of [old], taken
    from left to right without overlap, turned into [new], and every other
    character kept in place. *)
Inductive Replaced (old new : str) : str -> str -> Prop :=
| Replaced_nil : Replaced old new [] []
| Replaced_hit s r :
    Replaced old new s r -> Replaced old new (old ++ s) (new ++ r)
| Replaced_keep c s r :
    startswith (c :: s) old = false ->
    Replaced old new s r -> Replaced old new (c :: s) (c :: r).

(** Some non-empty end of [a] is a beginning of [b]. *)
Fixpoint border (a b : str) : bool :=
  match a with
  | [] => false
  | _ :: a' => startswith b a || border a' b
  end.

(** No occurrence of [a] can share a character with an occurrence of [b]. *)
Definition apart (a b : str) : bool :=
  negb (border a b) && negb (border b a) &&
  negb (contains a b) && negb (contains b a).

(** [sep.join(first :: rest)] *)
Fixpoint join (sep : str) (first : str) (rest : list str) : str :=
  match rest with
  | [] => first
  | p :: ps => first ++ sep ++ join sep p ps
  end.

(** A list of lines as [readlines] returns them: no line is empty, a line
    holds no ["\n"] except as its last character, which only the last line
    may lack. *)
Inductive wf_lines : list str -> Prop :=
| wf_lines_nil : wf_lines []
| wf_lines_last body :
    ~ In LF body -> body <> [] -> wf_lines [body]
| wf_lines_cons body ls :
    ~ In LF body -> wf_lines ls -> wf_lines ((body ++ nl) :: ls).

(** Number of lines of a text. *)
Definition count_lines (content : str) : nat := List.length (readlines content).

(** Number of line ends of a text. *)
Definition newlines (s : str) : nat := count_occ N.eq_dec s LF.

(** The lines the loop can write in place of a line. *)
Definition rewritten_lines : list str :=
  [py "DB_CONNECTION=pgsql" ++ nl; py "DB_HOST=pgsql" ++ nl;
   py "DB_PORT=5432" ++ nl; py "DB_DATABASE=laravel" ++ nl;
   py "DB_USERNAME=sail" ++ nl; py "DB_PASSWORD=password" ++ nl].

(** The text names one of the five keys of the uncomment branches. *)
Definition mentions_key (s : str) : bool :=
  contains (py "DB_HOST") s || contains (py "DB_PORT") s ||
  contains (py "DB_DATABASE") s || contains (py "DB_USERNAME") s ||
  contains (py "DB_PASSWORD") s.

(** The test of the five uncomment branches, taken together. *)
Definition commented_key (stripped : str) : bool :=
  startswith stripped (py "#") && mentions_key stripped.

End Notions.

Import Notions.

(** ** Sample inputs *)

Module Samples.

Import Pipeline.

(** A manifest with three script entries that call [php artisan]. *)
Definition three_scripts_first : str := py "dev: @".
Definition three_scripts_rest : list str :=
  [py " serve, test: @"; py " test, post-update-cmd: @";
   py " vendor:publish --tag=laravel-assets"].

(** The [vite.config.js] of a fresh project. *)
Definition fresh_vite_config : str :=
  py "import { defineConfig } from 'vite';" ++ nl ++
  py "import laravel from 'laravel-vite-plugin';" ++ nl ++
  py "import tailwindcss from '@tailwindcss/vite';" ++ nl ++
  nl ++
  py "export default defineConfig({" ++ nl ++
  py "    plugins: [" ++ nl ++
  py "        laravel({" ++ nl ++
  py "            input: ['resources/css/app.css', 'resources/js/app.js']," ++ nl ++
  py "            refresh: true," ++ nl ++
  py "        })," ++ nl ++
  py "        tailwindcss()," ++ nl ++
  py "    ]," ++ nl ++
  py "});" ++ nl.

(** The same config with a note that mentions the plugin call. *)
Definition noted_vite_config : str :=
  py "import { defineConfig } from 'vite';" ++ nl ++
  py "import laravel from 'laravel-vite-plugin';" ++ nl ++
  py "// later: vue({ template }) goes before laravel" ++ nl ++
  py "export default defineConfig({" ++ nl ++
  py "    plugins: [" ++ nl ++
  py "        laravel({" ++ nl ++
  py "            input: ['resources/js/app.js']," ++ nl ++
  py "        })," ++ nl ++
  py "    ]," ++ nl ++
  py "});" ++ nl.

(** A machine with no file and no tool installed: nothing can be started. *)
Definition bare_machine : System unit :=
  {| spawn := fun _ s => (LaunchFailed, s);
     read_input := fun s => (Some (py "blog"), s);
     joinpath := fun dir name => dir ++ py "/" ++ name;
     chdir := fun _ s => Some s;
     path_exists := fun _ _ => false;
     is_file := fun _ _ => false;
     is_dir := fun _ _ => false;
     read_text := fun _ _ => None;
     write_text := fun _ _ s => Some s;
     iterdir := fun _ _ => None;
     unlink := fun _ _ => None;
     rmtree := fun _ _ => None;
     mkdir_parents := fun _ s => Some s |}.

Definition boot : world unit := {| sys := tt; trace := [] |}.

(** A machine on which every command returns zero and every file
    operation is accepted; its project has none of the files yet. *)
Definition ready_machine : System unit :=
  {| spawn := fun _ s => (Exited 0, s);
     read_input := fun s => (Some (py "blog"), s);
     joinpath := fun dir name => dir ++ py "/" ++ name;
     chdir := fun _ s => Some s;
     path_exists := fun _ _ => false;
     is_file := fun _ _ => false;
     is_dir := fun _ _ => false;
     read_text := fun _ _ => None;
     write_text := fun _ _ s => Some s;
     iterdir := fun _ _ => None;
     unlink := fun _ _ => None;
     rmtree := fun _ _ => None;
     mkdir_parents := fun _ s => Some s |}.

End Samples.

Import Samples.

(** ** Notions on the trace of a run *)

Module Traces.

Import Pipeline.

Definition is_ok {A : Type} (o : outcome A) : bool :=
  match o with Ok _ => true | Raised _ => false end.

Definition is_print (e : event) : bool :=
  match e with Printed _ => true | _ => false end.

Definition is_spawn (e : event) : bool :=
  match e with Spawned _ => true | _ => false end.

(** The events of a run other than the printed lines. *)
Definition is_action (e : event) : bool := negb (is_print e).

(** The events of a run that remove something. *)
Definition is_removal (e : event) : bool :=
  match e with Unlinked _ | Rmtree _ => true | _ => false end.

(** The commands of the script, in the order of the source. *)
Definition commands (project_name : str) : list command :=
  [ Argv [py "composer"; py "global"; py "require"; py "laravel/installer"];
    Shell (py "laravel new " ++ project_name ++
           py " --pest --boost --npm --no-interaction");
    Argv [py "composer"; py "require"; py "laravel/sail"; py "--dev"];
    Argv [py "./vendor/bin/sail"; py "up"; py "-d"];
    Argv [py "./vendor/bin/sail"; py "artisan"; py "migrate"];
    Argv [py "./vendor/bin/sail"; py "composer"; py "require";
          py "inertiajs/inertia-laravel"];
    Argv [py "./vendor/bin/sail"; py "npm"; py "install"; py "vue";
          py "@vitejs/plugin-vue"; py "@inertiajs/vue3"];
    Argv [py "./vendor/bin/sail"; py "npm"; py "install"; py "-D";
          py "tailwindcss"; py "@tailwindcss/vite"];
    Argv [py "./vendor/bin/sail"; py "artisan"; py "inertia:middleware"] ].


(** [behaves f l s]: the action [s] only adds events to the trace; seen
    through the filter [f], a run of [s] that returns shows [l], and a run
    that raises shows a beginning of [l] and ends with the event of the
    operation that raised, which is not a [print]. *)
Definition behaves {os A : Type} (f : event -> bool) (l : list event)
           (s : M (os := os) A) : Prop :=
  forall w, exists evs,
    trace (snd (s w)) = trace w ++ evs /\
    match fst (s w) with
    | Ok _ => filter f evs = l
    | Raised _ =>
        (exists rest, l = filter f evs ++ rest) /\
        (exists evs' e, evs = evs' ++ [e] /\ is_print e = false)
    end.

(** The files the script opens for writing, the files it opens for
    reading, and the directories it creates, as the source names them. *)
Definition written_paths : list str :=
  [py "docker-compose.yml"; py ".env"; py "composer.json";
   py "resources/css/app.css"; py "vite.config.js";
   py "resources/views/app.blade.php"; py "bootstrap/app.php";
   py "resources/js/app.js"; py "routes/web.php";
   py "resources/js/Pages/Welcome.vue"].

Definition read_paths : list str :=
  [py ".env"; py "composer.json"; py "vite.config.js"].

Definition created_dirs : list str :=
  [py "resources/css"; py "resources/views"; py "resources/js/Pages";
   py "resources/js/Components"; py "resources/js/Layouts"].

(** An event that stays within what the script names. *)
Definition in_footprint {os : Type} (S : System os)
           (script_dir project_name : str) (e : event) : Prop :=
  match e with
  | Opened path mode =>
      (mode = py "w" /\ In path written_paths) \/
      (mode = py "r" /\ In path read_paths)
  | Mkdir path => In path created_dirs
  | Chdir path =>
      path = script_dir \/ path = joinpath S script_dir project_name
  | Spawned c => In c (commands project_name)
  | _ => True
  end.



(** [confined P s]: the action [s] only adds events to the trace, and each
    of them satisfies [P]. *)
Definition confined {os A : Type} (P : event -> Prop) (s : M (os := os) A)
  : Prop :=
  forall w, exists evs, trace (snd (s w)) = trace w ++ evs /\ Forall P evs.

End Traces.

Import Traces.

(** ** Tactics *)

Ltac py_eval :=
  repeat match goal with
         | |- context [py ?s] =>
             let v := eval vm_compute in (py s) in change (py s) with v
         | H : context [py ?s] |- _ =>
             let v := eval vm_compute in (py s) in change (py s) with v in H
         end.

Ltac split_if :=
  lazymatch goal with
  | |- context [if ?b then _ else _] => destruct b eqn:?
  end.

(** ** Facts on Python strings *)

Section StringFacts.

Lemma startswith_nil (s : str) : startswith s [] = true.
Proof. now destruct s. Qed.

Lemma startswith_app (p t : str) : startswith (p ++ t) p = true.
Proof.
  induction p as [|x p IH]; simpl; [apply startswith_nil|].
  now rewrite N.eqb_refl, IH.
Qed.

Lemma startswith_inv (s p : str) :
  startswith s p = true -> exists t, s = p ++ t.
Proof.
  revert s; induction p as [|x p IH]; intros s H.
  - now exists s.
  - destruct s as [|y s]; simpl in H; [discriminate|].
    apply andb_true_iff in H as [Hxy Hp].
    apply N.eqb_eq in Hxy; subst y.
    destruct (IH _ Hp) as [t ->]. now exists t.
Qed.

Lemma startswith_iff (s p : str) :
  startswith s p = true <-> exists t, s = p ++ t.
Proof.
  split; [apply startswith_inv|].
  intros [t ->]. apply startswith_app.
Qed.

Lemma contains_unfold (p s : str) :
  contains p s =
  startswith s p || match s with [] => false | _ :: s' => contains p s' end.
Proof. now destruct s. Qed.

Lemma contains_startswith (p s : str) :
  startswith s p = true -> contains p s = true.
Proof. intros H. rewrite contains_unfold, H. reflexivity. Qed.

Lemma contains_intro (p u v : str) : contains p (u ++ p ++ v) = true.
Proof.
  induction u as [|c u IH].
  - cbn [app]. apply contains_startswith, startswith_app.
  - cbn [app]. rewrite contains_unfold, IH. apply orb_true_r.
Qed.

Lemma contains_inv (p s : str) :
  contains p s = true -> exists u v, s = u ++ p ++ v.
Proof.
  induction s as [|c s IH]; rewrite contains_unfold; intros H.
  - rewrite orb_false_r in H. apply startswith_inv in H as [t H].
    exists [], t. exact H.
  - apply orb_true_iff in H as [H|H].
    + apply startswith_inv in H as [t H]. exists [], t. exact H.
    + destruct (IH H) as (u & v & ->). now exists (c :: u), v.
Qed.

Lemma contains_iff (p s : str) :
  contains p s = true <-> exists u v, s = u ++ p ++ v.
Proof.
  split; [apply contains_inv|].
  intros (u & v & ->). apply contains_intro.
Qed.

Lemma contains_false (p s : str) :
  contains p s = false <-> forall u v, s <> u ++ p ++ v.
Proof.
  split.
  - intros H u v ->. now rewrite contains_intro in H.
  - intros H. destruct (contains p s) eqn:E; [|reflexivity].
    apply contains_inv in E as (u & v & E). now destruct (H u v).
Qed.

Lemma contains_trans (a b s : str) :
  contains a b = true -> contains b s = true -> contains a s = true.
Proof.
  intros (u & v & ->)%contains_inv (u' & v' & ->)%contains_inv.
  replace (u' ++ (u ++ a ++ v) ++ v') with ((u' ++ u) ++ a ++ (v ++ v'))
    by now rewrite <- !app_assoc.
  apply contains_intro.
Qed.

Lemma contains_app_l (p a b : str) :
  contains p a = true -> contains p (a ++ b) = true.
Proof.
  intros (u & v & ->)%contains_inv.
  replace ((u ++ p ++ v) ++ b) with (u ++ p ++ (v ++ b))
    by now rewrite <- !app_assoc.
  apply contains_intro.
Qed.

Lemma contains_app_r (p a b : str) :
  contains p b = true -> contains p (a ++ b) = true.
Proof.
  intros (u & v & ->)%contains_inv.
  rewrite app_assoc. apply contains_intro.
Qed.

Lemma contains_cons_false (p : str) (c : char) (s : str) :
  contains p (c :: s) = false ->
  startswith (c :: s) p = false /\ contains p s = false.
Proof.
  rewrite contains_unfold. intros H. now apply orb_false_iff in H.
Qed.

Lemma border_inv (a b : str) :
  border a b = true ->
  exists u v w, v <> [] /\ a = u ++ v /\ b = v ++ w.
Proof.
  induction a as [|c a IH]; simpl; [discriminate|].
  intros [H|H]%orb_true_iff.
  - apply startswith_inv in H as [w ->].
    exists [], (c :: a), w. now repeat split.
  - destruct (IH H) as (u & v & w & Hv & -> & ->).
    exists (c :: u), v, w. now repeat split.
Qed.

Lemma border_intro (u v w : str) :
  v <> [] -> border (u ++ v) (v ++ w) = true.
Proof.
  intros Hv. induction u as [|c u IH]; simpl.
  - destruct v as [|x v]; [easy|]. cbn [border].
    change (x :: v ++ w) with ((x :: v) ++ w).
    now rewrite startswith_app.
  - rewrite IH. apply orb_true_r.
Qed.

Lemma border_prefix (c : char) (v w : str) :
  border (c :: v) ((c :: v) ++ w) = true.
Proof. now apply (border_intro [] (c :: v) w). Qed.

Lemma contains_prefix (p v : str) : contains p (p ++ v) = true.
Proof. apply (contains_intro p [] v). Qed.

Lemma contains_suffix (p u : str) : contains p (u ++ p) = true.
Proof.
  pose proof (contains_intro p u []) as H. now rewrite app_nil_r in H.
Qed.

End StringFacts.

(** ** Facts on [replace]: the scan, read as the relation [Replaced] *)

Lemma replace_from_skip (old new : str) (k : nat) (s : str) :
  replace_from old new k s = replace_from old new 0 (skipn k s).
Proof.
  revert k; induction s as [|c s IH]; intros [|k]; try reflexivity.
  cbn [replace_from skipn]. apply IH.
Qed.

Lemma replace_from_hit (old new t : str) :
  old <> [] ->
  replace_from old new 0 (old ++ t) = new ++ replace_from old new 0 t.
Proof.
  intros Hold. destruct old as [|x o]; [easy|].
  cbn [app replace_from].
  change (x :: o ++ t) with ((x :: o) ++ t). rewrite startswith_app.
  f_equal. rewrite replace_from_skip. f_equal.
  cbn [List.length]. rewrite Nat.sub_succ, Nat.sub_0_r.
  rewrite skipn_app, skipn_all, Nat.sub_diag. reflexivity.
Qed.

Lemma replace_from_keep (old new : str) (c : char) (s : str) :
  startswith (c :: s) old = false ->
  replace_from old new 0 (c :: s) = c :: replace_from old new 0 s.
Proof. intros H. cbn [replace_from]. now rewrite H. Qed.

Lemma replace_from_Replaced (old new : str) :
  old <> [] -> forall s, Replaced old new s (replace_from old new 0 s).
Proof.
  intros Hold s.
  remember (List.length s) as n eqn:Hn.
  revert s Hn. induction n as [n IH] using lt_wf_ind. intros s Hn.
  destruct s as [|c s]; [constructor|].
  destruct (startswith (c :: s) old) eqn:E.
  - apply startswith_inv in E as [t E]. rewrite E.
    rewrite replace_from_hit by assumption.
    constructor. apply (IH (List.length t)); [|reflexivity].
    subst n. rewrite E, length_app.
    destruct old; [easy | cbn; lia].
  - rewrite replace_from_keep by assumption.
    constructor; [assumption|].
    apply (IH (List.length s)); [subst n; cbn; lia | reflexivity].
Qed.

Lemma replace_Replaced (old new s : str) :
  old <> [] -> Replaced old new s (replace s old new).
Proof.
  intros Hold. unfold replace. destruct old as [|x o] eqn:E; [easy|].
  apply replace_from_Replaced. easy.
Qed.

Lemma Replaced_replace (old new s r : str) :
  old <> [] -> Replaced old new s r -> r = replace s old new.
Proof.
  intros Hold H.
  assert (R : replace s old new = replace_from old new 0 s)
    by (unfold replace; destruct old; [easy | reflexivity]).
  rewrite R. clear R.
  induction H as [|s r H IH|c s r Hc H IH].
  - reflexivity.
  - rewrite replace_from_hit by assumption. now rewrite IH.
  - rewrite replace_from_keep by assumption. now rewrite IH.
Qed.

Section ScanFacts.

Variables old new : str.

(** A word found at the very start of the result, that cannot run into an
    inserted [new], was at the very start of the source. *)
Lemma Replaced_prefix_back (s r : str) :
  Replaced old new s r ->
  forall t x, r = t ++ x ->
    border t new = false -> contains new t = false ->
    exists y, s = t ++ y.
Proof.
  induction 1 as [|s r H IH|c s r Hc H IH]; intros t x E Hb Hc'.
  - symmetry in E. apply app_eq_nil in E as [-> _]. now exists [].
  - apply app_eq_app in E as [l [[E _]|[E _]]].
    + destruct t as [|y t]; [now exists (old ++ s)|].
      rewrite E in Hb.
      now rewrite border_prefix in Hb.
    + rewrite E in Hc'. now rewrite contains_prefix in Hc'.
  - destruct t as [|y t]; [now exists (c :: s)|].
    cbn [app] in E. injection E as <- E.
    cbn [border] in Hb. apply orb_false_iff in Hb as [_ Hb].
    apply contains_cons_false in Hc' as [_ Hc'].
    destruct (IH _ _ E Hb Hc') as [z ->]. now exists z.
Qed.

(** A word found at the very start of the source, that cannot run into an
    occurrence of [old], is still at the very start of the result. *)
Lemma Replaced_prefix_fwd (s r : str) :
  Replaced old new s r ->
  forall t x, s = t ++ x ->
    border t old = false -> contains old t = false ->
    exists y, r = t ++ y.
Proof.
  induction 1 as [|s r H IH|c s r Hc H IH]; intros t x E Hb Hc'.
  - symmetry in E. apply app_eq_nil in E as [-> _]. now exists [].
  - apply app_eq_app in E as [l [[E _]|[E _]]].
    + destruct t as [|y t]; [now exists (new ++ r)|].
      rewrite E in Hb.
      now rewrite border_prefix in Hb.
    + rewrite E in Hc'. now rewrite contains_prefix in Hc'.
  - destruct t as [|y t]; [now exists (c :: r)|].
    cbn [app] in E. injection E as <- E.
    cbn [border] in Hb. apply orb_false_iff in Hb as [_ Hb].
    apply contains_cons_false in Hc' as [_ Hc'].
    destruct (IH _ _ E Hb Hc') as [z ->]. now exists z.
Qed.

Lemma apart_inv (a b : str) :
  apart a b = true ->
  border a b = false /\ border b a = false /\
  contains a b = false /\ contains b a = false.
Proof.
  unfold apart. rewrite !andb_true_iff, !negb_true_iff. tauto.
Qed.

Lemma apart_nonempty (a b : str) : apart a b = true -> a <> [].
Proof.
  intros (_ & _ & H & _)%apart_inv ->.
  rewrite contains_unfold, startswith_nil in H. discriminate.
Qed.

(** An occurrence of [a] in [w ++ r], with [a] and [w] apart, lies in [r]. *)
Lemma occurrence_after (a w r u v : str) :
  apart a w = true -> w ++ r = u ++ a ++ v -> exists u', r = u' ++ a ++ v.
Proof.
  intros (Hab & Hba & Hcab & Hcba)%apart_inv E.
  apply app_eq_app in E as [l [[E1 E2]|[E1 E2]]].
  - destruct l as [|y l].
    + exists []. now rewrite E2.
    + apply app_eq_app in E2 as [l' [[E3 E4]|[E3 E4]]].
      * rewrite E1, E3 in Hba. now rewrite border_intro in Hba.
      * rewrite E1, E3 in Hcab. now rewrite contains_intro in Hcab.
  - now exists l.
Qed.

(** [replace] creates no occurrence of a word that is apart from [new]. *)
Lemma Replaced_no_new_occurrence (a s r : str) :
  Replaced old new s r -> apart a new = true ->
  contains a r = true -> contains a s = true.
Proof.
  intros H Ha (u & v & E)%contains_inv. revert u E.
  induction H as [|s r H IH|c s r Hc H IH]; intros u E.
  - apply contains_iff. now exists u, v.
  - destruct (occurrence_after _ _ _ _ _ Ha E) as [u' E'].
    apply contains_app_r. now apply (IH u').
  - destruct u as [|y u].
    + apply apart_inv in Ha as (Hb & _ & _ & Hn).
      destruct (Replaced_prefix_back _ _ (Replaced_keep _ _ _ _ _ Hc H) a v E Hb Hn)
        as [z ->].
      apply contains_prefix.
    + injection E as <- E. apply (contains_app_r a [c]). now apply (IH u).
Qed.

(** After [replace] no occurrence of [old] is left, when [old] and [new]
    are apart. *)
Lemma Replaced_no_old_left (s r : str) :
  Replaced old new s r -> apart old new = true -> contains old r = false.
Proof.
  intros H Ha. apply contains_false. intros u v E. revert u E.
  induction H as [|s r H IH|c s r Hc H IH]; intros u E.
  - symmetry in E. apply app_eq_nil in E as [_ [E _]%app_eq_nil].
    now apply (apart_nonempty _ _ Ha).
  - destruct (occurrence_after _ _ _ _ _ Ha E) as [u' E']. now apply (IH u').
  - destruct u as [|y u].
    + apply apart_inv in Ha as (Hb & _ & _ & Hn).
      destruct (Replaced_prefix_back _ _ (Replaced_keep _ _ _ _ _ Hc H) old v E Hb Hn)
        as [z Hz].
      rewrite Hz, startswith_app in Hc. discriminate.
    + injection E as <- E. now apply (IH u).
Qed.

(** [replace] keeps every occurrence of a word that is apart from [old]. *)
Lemma Replaced_keeps_occurrence (m s r : str) :
  Replaced old new s r -> apart m old = true ->
  contains m s = true -> contains m r = true.
Proof.
  intros H Ha (u & v & E)%contains_inv. revert u E.
  induction H as [|s r H IH|c s r Hc H IH]; intros u E.
  - apply contains_iff. now exists u, v.
  - destruct (occurrence_after _ _ _ _ _ Ha E) as [u' E'].
    apply contains_app_r. now apply (IH u').
  - destruct u as [|y u].
    + apply apart_inv in Ha as (Hb & _ & _ & Hn).
      destruct (Replaced_prefix_fwd _ _ (Replaced_keep _ _ _ _ _ Hc H) m v E Hb Hn)
        as [z ->].
      apply contains_prefix.
    + injection E as <- E. apply (contains_app_r m [c]). now apply (IH u).
Qed.

(** Without an occurrence of [old] the text is returned as it is. *)
Lemma Replaced_absent (s r : str) :
  Replaced old new s r -> contains old s = false -> r = s.
Proof.
  induction 1 as [|s r H IH|c s r Hc H IH]; intros Hn.
  - reflexivity.
  - now rewrite contains_prefix in Hn.
  - apply contains_cons_false in Hn as [_ Hn]. now rewrite IH.
Qed.

(** With an occurrence of [old] the result holds [new]. *)
Lemma Replaced_present (s r : str) :
  Replaced old new s r -> old <> [] ->
  contains old s = true -> contains new r = true.
Proof.
  induction 1 as [|s r H IH|c s r Hc H IH]; intros Hold Hn.
  - destruct old; [easy | discriminate].
  - apply contains_prefix.
  - rewrite contains_unfold, Hc in Hn. cbn [orb] in Hn.
    apply (contains_app_r new [c]). now apply IH.
Qed.

End ScanFacts.

(** ** The substring edits: a repeated run changes nothing *)

Module SubstringEdits.

Import Composer Vite.

Lemma php_artisan_nonempty : php_artisan <> [].
Proof. discriminate. Qed.

Lemma laravel_import_nonempty : laravel_import <> [].
Proof. discriminate. Qed.

Lemma laravel_call_nonempty : laravel_call <> [].
Proof. discriminate. Qed.

Lemma update_composer_no_php_artisan (content : str) :
  contains php_artisan (update_composer content) = false.
Proof.
  apply Replaced_no_old_left with (new := sail_artisan) (s := content).
  - apply replace_Replaced, php_artisan_nonempty.
  - vm_compute. reflexivity.
Qed.

Lemma update_composer_idempotent (content : str) :
  update_composer (update_composer content) = update_composer content.
Proof.
  unfold update_composer at 1.
  apply Replaced_absent with (old := php_artisan) (new := sail_artisan).
  - apply replace_Replaced, php_artisan_nonempty.
  - apply update_composer_no_php_artisan.
Qed.

(** Texts the [vite.config.js] step returns as they are. *)
Lemma update_vite_has_import (content : str) :
  contains vue_import content = true -> update_vite content = content.
Proof. intros H. unfold update_vite. now rewrite H. Qed.

Lemma update_vite_no_anchor (content : str) :
  contains laravel_import content = false ->
  contains vue_call content = true ->
  update_vite content = content.
Proof.
  intros HA HG. unfold update_vite.
  destruct (contains vue_import content); [reflexivity|]. cbn [negb].
  rewrite (Replaced_absent laravel_import laravel_vue_import content
             (replace content laravel_import laravel_vue_import))
    by (try apply replace_Replaced; try apply laravel_import_nonempty;
        assumption).
  now rewrite HG.
Qed.

Lemma update_vite_cases (content : str) :
  update_vite content = content \/
  contains vue_import (update_vite content) = true \/
  (contains laravel_import (update_vite content) = false /\
   contains vue_call (update_vite content) = true).
Proof.
  unfold update_vite.
  destruct (contains vue_import content) eqn:EM; cbn [negb]; [now left|].
  pose proof (replace_Replaced laravel_import laravel_vue_import content
                laravel_import_nonempty) as R1.
  set (c1 := replace content laravel_import laravel_vue_import) in *.
  pose proof (replace_Replaced laravel_call vue_laravel_call c1
                laravel_call_nonempty) as R2.
  destruct (contains laravel_import content) eqn:EA.
  - (* the import anchor is there: the import is inserted and stays *)
    assert (M1 : contains vue_import c1 = true).
    { apply contains_trans with (b := laravel_vue_import).
      - vm_compute. reflexivity.
      - apply (Replaced_present _ _ _ _ R1 laravel_import_nonempty EA). }
    right; left. destruct (contains vue_call c1); cbn [negb]; [exact M1|].
    apply (Replaced_keeps_occurrence _ _ _ _ _ R2); [|exact M1].
    vm_compute. reflexivity.
  - (* no import anchor: the first replace changes nothing *)
    assert (E1 : c1 = content) by apply (Replaced_absent _ _ _ _ R1 EA).
    rewrite E1 in *. clear E1 c1 R1.
    destruct (contains vue_call content) eqn:EG; cbn [negb]; [now left|].
    destruct (contains laravel_call content) eqn:EL.
    + right; right. split.
      * destruct (contains laravel_import
                    (replace content laravel_call vue_laravel_call)) eqn:E;
          [|reflexivity].
        apply (Replaced_no_new_occurrence _ _ _ _ _ R2) in E;
          [congruence | vm_compute; reflexivity].
      * apply contains_trans with (b := vue_laravel_call).
        -- vm_compute. reflexivity.
        -- apply (Replaced_present _ _ _ _ R2 laravel_call_nonempty EL).
    + left. apply (Replaced_absent _ _ _ _ R2 EL).
Qed.

Lemma update_vite_idempotent (content : str) :
  update_vite (update_vite content) = update_vite content.
Proof.
  destruct (update_vite_cases content) as [H|[H|[H1 H2]]].
  - now rewrite !H.
  - now apply update_vite_has_import.
  - now apply update_vite_no_anchor.
Qed.

(** Once a guarded replacement has inserted its text, its guard is closed:
    the text is there, so the replacement is not applied again. *)
Lemma guard_closed (old new marker content : str) :
  old <> [] -> contains marker new = true ->
  replace content old new = content \/
  contains marker (replace content old new) = true.
Proof.
  intros Hold Hm.
  pose proof (replace_Replaced old new content Hold) as R.
  destruct (contains old content) eqn:E.
  - right. apply contains_trans with (b := new); [exact Hm|].
    apply (Replaced_present _ _ _ _ R Hold E).
  - left. apply (Replaced_absent _ _ _ _ R E).
Qed.

(** C5.  The substring edits of [composer.json] and of [vite.config.js],
    run a second time on their own result, return it unchanged: nothing is
    inserted twice, whatever the file holds.  For each of the two guarded
    replacements of [vite.config.js] taken alone, a run either inserts
    nothing or leaves the text its guard looks for. *)
Theorem substring_edits_idempotent (content : str) :
  update_composer (update_composer content) = update_composer content /\
  update_vite (update_vite content) = update_vite content /\
  (replace content laravel_import laravel_vue_import = content \/
   contains vue_import (replace content laravel_import laravel_vue_import)
   = true) /\
  (replace content laravel_call vue_laravel_call = content \/
   contains vue_call (replace content laravel_call vue_laravel_call) = true).
Proof.
  split; [apply update_composer_idempotent|].
  split; [apply update_vite_idempotent|].
  split; apply guard_closed; try discriminate; vm_compute; reflexivity.
Qed.

End SubstringEdits.

(** ** [replace] on a text cut at the occurrences of [old] *)

Section JoinFacts.

Variables old new : str.
Hypothesis old_nonempty : old <> [].

Lemma replace_eq (s : str) : replace s old new = replace_from old new 0 s.
Proof. unfold replace. destruct old; [easy | reflexivity]. Qed.

Lemma join_cons (sep : str) (c : char) (first : str) (rest : list str) :
  c :: join sep first rest = join sep (c :: first) rest.
Proof. now destruct rest. Qed.

Lemma join_starts (sep first : str) (rest : list str) :
  exists x, join sep first rest = first ++ x.
Proof.
  destruct rest as [|p ps]; cbn [join].
  - exists []. now rewrite app_nil_r.
  - now eexists.
Qed.

Lemma Replaced_join (s r : str) :
  Replaced old new s r ->
  exists first rest,
    Forall (fun p => contains old p = false) (first :: rest) /\
    s = join old first rest /\ r = join new first rest.
Proof.
  induction 1 as [|s r H IH|c s r Hc H IH].
  - exists [], []. repeat split. constructor; [|constructor].
    destruct old; [easy | reflexivity].
  - destruct IH as (f & rs & HF & -> & ->).
    exists [], (f :: rs). repeat split.
    constructor; [|exact HF]. destruct old; [easy | reflexivity].
  - destruct IH as (f & rs & HF & -> & ->).
    exists (c :: f), rs. rewrite <- !join_cons. repeat split.
    inversion HF as [|? ? Hf Hrs]; subst. constructor; [|exact Hrs].
    rewrite contains_unfold, Hf, orb_false_r.
    destruct (startswith (c :: f) old) eqn:E; [|reflexivity].
    apply startswith_inv in E as [t E].
    destruct (join_starts old f rs) as [x Hx].
    rewrite Hx in Hc. change (c :: f ++ x) with ((c :: f) ++ x) in Hc.
    now rewrite E, <- app_assoc, startswith_app in Hc.
Qed.

(** The scan does not stop inside [u] when [old] neither occurs in [u] nor
    can overlap itself. *)
Lemma replace_first (u v : str) :
  contains old u = false -> border (tl old) old = false ->
  replace (u ++ old ++ v) old new = u ++ new ++ replace v old new.
Proof.
  intros Hu Hb. rewrite !replace_eq.
  induction u as [|c u IH]; cbn [app].
  - now apply replace_from_hit.
  - apply contains_cons_false in Hu as [Hs Hu].
    rewrite replace_from_keep; [now rewrite IH|].
    destruct (startswith (c :: u ++ old ++ v) old) eqn:E; [|reflexivity].
    exfalso. apply startswith_inv in E as [t E].
    change (c :: u ++ old ++ v) with ((c :: u) ++ old ++ v) in E.
    apply app_eq_app in E as [l [[E1 E2]|[E1 E2]]].
    + rewrite E1, startswith_app in Hs. discriminate.
    + destruct l as [|y l].
      * rewrite app_nil_r in E1. rewrite <- E1 in Hs.
        rewrite <- (app_nil_r old) in Hs at 1.
        now rewrite startswith_app in Hs.
      * apply app_eq_app in E2 as [l' [[E3 _]|[E3 _]]].
        -- rewrite E1 in Hb at 1. cbn [app tl] in Hb.
           rewrite E3 in Hb. now rewrite border_intro in Hb.
        -- apply (f_equal (@List.length _)) in E1, E3.
           rewrite !length_app in *. cbn [List.length] in *. lia.
Qed.

Lemma replace_join (first : str) (rest : list str) :
  border (tl old) old = false ->
  Forall (fun p => contains old p = false) (first :: rest) ->
  replace (join old first rest) old new = join new first rest.
Proof.
  intros Hb. revert first.
  induction rest as [|p ps IH]; intros first HF;
    inversion HF as [|? ? Hf Hrs]; subst; cbn [join].
  - apply Replaced_absent with (old := old) (new := new); [|exact Hf].
    now apply replace_Replaced.
  - rewrite replace_first by assumption. now rewrite IH.
Qed.

End JoinFacts.

(** ** [composer.json]: every [php artisan] becomes [./vendor/bin/sail artisan] *)

Module ComposerFacts.

Import Composer.

Lemma php_artisan_no_self_overlap : border (tl php_artisan) php_artisan = false.
Proof. vm_compute. reflexivity. Qed.

(** C8.  Cut the manifest at the occurrences of [php artisan]: such a cut
    exists for every manifest, and for every such cut the step returns the
    same pieces, in the same order, joined by [./vendor/bin/sail artisan].
    So each occurrence, however many there are, is rewritten and the text
    between the occurrences is returned as it was. *)
Theorem composer_replaces_every_occurrence (composer_content : str) :
  (exists first rest,
      Forall (fun part => contains php_artisan part = false) (first :: rest) /\
      composer_content = join php_artisan first rest) /\
  (forall first rest,
      Forall (fun part => contains php_artisan part = false) (first :: rest) ->
      composer_content = join php_artisan first rest ->
      update_composer composer_content = join sail_artisan first rest).
Proof.
  split.
  - destruct (Replaced_join php_artisan sail_artisan
                SubstringEdits.php_artisan_nonempty composer_content _
                (replace_Replaced php_artisan sail_artisan composer_content
                   SubstringEdits.php_artisan_nonempty))
      as (first & rest & HF & E & _).
    now exists first, rest.
  - intros first rest HF ->. unfold update_composer.
    apply replace_join;
      [apply SubstringEdits.php_artisan_nonempty
      | apply php_artisan_no_self_overlap | exact HF].
Qed.

Lemma composer_replaces_every_occurrence_witness :
  update_composer
    (py "dev: @php artisan serve, test: @php artisan test, post-update-cmd: @php artisan vendor:publish --tag=laravel-assets")
  = py "dev: @./vendor/bin/sail artisan serve, test: @./vendor/bin/sail artisan test, post-update-cmd: @./vendor/bin/sail artisan vendor:publish --tag=laravel-assets".
Proof.
  apply (proj2 (composer_replaces_every_occurrence _)
           three_scripts_first three_scripts_rest).
  - repeat constructor.
  - reflexivity.
Defined.

End ComposerFacts.

(** ** [vite.config.js]: where the import and the plugin block go *)

Module ViteFacts.

Import Vite.

Example update_vite_fresh :
  update_vite fresh_vite_config =
  py "import { defineConfig } from 'vite';" ++ nl ++
  py "import laravel from 'laravel-vite-plugin';" ++ nl ++
  py "import vue from '@vitejs/plugin-vue';" ++ nl ++
  py "import tailwindcss from '@tailwindcss/vite';" ++ nl ++
  nl ++
  py "export default defineConfig({" ++ nl ++
  py "    plugins: [" ++ nl ++
  py "        vue({" ++ nl ++
  py "            template: {" ++ nl ++
  py "                transformAssetUrls: {" ++ nl ++
  py "                    base: null," ++ nl ++
  py "                    includeAbsolute: false," ++ nl ++
  py "                }," ++ nl ++
  py "            }," ++ nl ++
  py "        })," ++ nl ++
  py "        laravel({" ++ nl ++
  py "            input: ['resources/css/app.css', 'resources/js/app.js']," ++ nl ++
  py "            refresh: true," ++ nl ++
  py "        })," ++ nl ++
  py "        tailwindcss()," ++ nl ++
  py "    ]," ++ nl ++
  py "});" ++ nl.
Proof. vm_compute. reflexivity. Qed.

(** C7, as stated, fails: this config lacks the plugin import and holds
    both anchors, and the step inserts the import line only.  The text
    [vue({] of the note stops the insertion of the block, so the plugin
    block is nowhere in the result. *)
Lemma vite_block_not_inserted :
  contains vue_import noted_vite_config = false /\
  contains laravel_import noted_vite_config = true /\
  contains laravel_call noted_vite_config = true /\
  contains vue_laravel_call (update_vite noted_vite_config) = false /\
  update_vite noted_vite_config =
    replace noted_vite_config laravel_import laravel_vue_import.
Proof. vm_compute. repeat split. Qed.

(** C7, amended.  On a config that lacks the plugin import, the step puts
    the line [import vue from '@vitejs/plugin-vue';] right after every
    occurrence of the anchor import, and changes nothing else, which gives
    [c1]; when [c1] holds the text [vue({] that is the result; otherwise
    the plugin block is put right before every occurrence of the anchor call
    [laravel({] indented by eight spaces, and nothing else of [c1] is
    changed. *)
Theorem vite_insertions (vite_content : str) :
  contains vue_import vite_content = false ->
  laravel_vue_import =
    laravel_import ++ nl ++ py "import vue from '@vitejs/plugin-vue';" /\
  vue_laravel_call =
    (py "        vue({" ++ nl ++
     py "            template: {" ++ nl ++
     py "                transformAssetUrls: {" ++ nl ++
     py "                    base: null," ++ nl ++
     py "                    includeAbsolute: false," ++ nl ++
     py "                }," ++ nl ++
     py "            }," ++ nl ++
     py "        })," ++ nl) ++ laravel_call /\
  exists first rest,
    Forall (fun part => contains laravel_import part = false) (first :: rest) /\
    vite_content = join laravel_import first rest /\
    let c1 := join laravel_vue_import first rest in
    (contains vue_call c1 = true -> update_vite vite_content = c1) /\
    (contains vue_call c1 = false ->
     exists first' rest',
       Forall (fun part => contains laravel_call part = false)
         (first' :: rest') /\
       c1 = join laravel_call first' rest' /\
       update_vite vite_content = join vue_laravel_call first' rest').
Proof.
  intros HM. split; [reflexivity|]. split; [reflexivity|].
  destruct (Replaced_join laravel_import laravel_vue_import
              SubstringEdits.laravel_import_nonempty vite_content _
              (replace_Replaced laravel_import laravel_vue_import vite_content
                 SubstringEdits.laravel_import_nonempty))
    as (first & rest & HF & E & E1).
  exists first, rest. split; [exact HF|]. split; [exact E|].
  cbv zeta. unfold update_vite. rewrite HM. cbn [negb]. rewrite E1.
  split; intros HG; rewrite HG; cbn [negb]; [reflexivity|].
  destruct (Replaced_join laravel_call vue_laravel_call
              SubstringEdits.laravel_call_nonempty
              (join laravel_vue_import first rest) _
              (replace_Replaced laravel_call vue_laravel_call _
                 SubstringEdits.laravel_call_nonempty))
    as (first' & rest' & HF' & E' & E2).
  now exists first', rest'.
Qed.

Lemma vite_insertions_witness :
  exists first rest,
    Forall (fun part => contains laravel_import part = false) (first :: rest) /\
    fresh_vite_config = join laravel_import first rest /\
    let c1 := join laravel_vue_import first rest in
    (contains vue_call c1 = true -> update_vite fresh_vite_config = c1) /\
    (contains vue_call c1 = false ->
     exists first' rest',
       Forall (fun part => contains laravel_call part = false)
         (first' :: rest') /\
       c1 = join laravel_call first' rest' /\
       update_vite fresh_vite_config = join vue_laravel_call first' rest').
Proof.
  apply (vite_insertions fresh_vite_config). vm_compute. reflexivity.
Defined.

End ViteFacts.

(** ** Facts on [strip] and [readlines] *)

Section LineFacts.

Lemma lstrip_app_nonspace (a : str) (c : char) (b : str) :
  isspace c = false -> lstrip (a ++ c :: b) = lstrip a ++ c :: b.
Proof.
  intros Hc. induction a as [|x a IH]; cbn [app lstrip].
  - now rewrite Hc.
  - destruct (isspace x); [exact IH | reflexivity].
Qed.

Lemma rstrip_app_nonspace (p : str) (c : char) (v : str) :
  isspace c = false -> rstrip (p ++ c :: v) = p ++ c :: rstrip v.
Proof.
  intros Hc. unfold rstrip.
  rewrite rev_app_distr. cbn [rev]. rewrite <- app_assoc. cbn [app].
  rewrite lstrip_app_nonspace by assumption.
  rewrite rev_app_distr. cbn [rev]. rewrite rev_involutive, <- app_assoc.
  reflexivity.
Qed.

(** A literal that neither starts nor ends with white space stays whole at
    the start of a stripped line. *)
Lemma strip_literal (p v : str) :
  match p with c :: _ => isspace c | [] => true end = false ->
  match rev p with c :: _ => isspace c | [] => true end = false ->
  strip (p ++ v) = p ++ rstrip v.
Proof.
  intros Hh Hl. unfold strip.
  assert (E : lstrip (p ++ v) = p ++ v).
  { destruct p as [|h p]; [discriminate|]. cbn [app lstrip]. now rewrite Hh. }
  rewrite E. destruct (rev p) as [|c q] eqn:Er; [discriminate|].
  apply (f_equal (@rev _)) in Er. rewrite rev_involutive in Er.
  cbn [rev] in Er. rewrite Er, <- !app_assoc. cbn [app].
  now apply rstrip_app_nonspace.
Qed.

Lemma lstrip_suffix (s : str) : exists w, s = w ++ lstrip s.
Proof.
  induction s as [|c s [w IH]]; cbn [lstrip].
  - now exists [].
  - destruct (isspace c).
    + exists (c :: w). cbn [app]. now rewrite <- IH.
    + now exists [].
Qed.

Lemma rstrip_prefix (s : str) : exists w, s = rstrip s ++ w.
Proof.
  unfold rstrip. destruct (lstrip_suffix (rev s)) as [w E].
  exists (rev w). rewrite <- rev_app_distr, <- E. now rewrite rev_involutive.
Qed.

(** An occurrence of [a] in [p ++ w] lies in [w] when it fits neither in
    [p] nor across the seam. *)
Lemma contains_app_inv (a p w : str) :
  contains a (p ++ w) = true ->
  border p a = false -> contains a p = false -> contains a w = true.
Proof.
  intros (u & v & E)%contains_inv Hb Hp.
  apply app_eq_app in E as [l [[E1 E2]|[E1 E2]]].
  - destruct l as [|y l].
    + cbn [app] in E2. rewrite <- E2. apply contains_prefix.
    + apply app_eq_app in E2 as [l' [[E3 _]|[E3 _]]].
      * rewrite E1, E3 in Hb. now rewrite border_intro in Hb.
      * rewrite E1, E3 in Hp. now rewrite contains_intro in Hp.
  - rewrite E2. apply contains_intro.
Qed.

Lemma readlines_line (body rest : str) :
  ~ In LF body -> readlines ((body ++ nl) ++ rest) = (body ++ nl) :: readlines rest.
Proof.
  induction body as [|c body IH]; intros Hn.
  - reflexivity.
  - cbn [app readlines].
    destruct (N.eqb_spec c LF) as [->|_]; [destruct Hn; now left|].
    cbn [app] in IH. rewrite IH; [reflexivity|].
    intros Hin. apply Hn. now right.
Qed.

Lemma readlines_last (body : str) :
  ~ In LF body -> body <> [] -> readlines body = [body].
Proof.
  induction body as [|c body IH]; intros Hn Hne; [easy|].
  cbn [readlines].
  destruct (N.eqb_spec c LF) as [->|_]; [destruct Hn; now left|].
  destruct body as [|d body]; [reflexivity|].
  rewrite IH; [reflexivity | | discriminate].
  intros Hin. apply Hn. now right.
Qed.

Lemma readlines_wf (s : str) : wf_lines (readlines s).
Proof.
  induction s as [|c s IH]; cbn [readlines]; [constructor|].
  destruct (N.eqb_spec c LF) as [->|Hc].
  - apply (wf_lines_cons []); [easy | exact IH].
  - destruct (readlines s) as [|l ls].
    + apply wf_lines_last; [|discriminate].
      intros [H|[]]. now apply Hc.
    + inversion IH as [|body Hb Hne|body ls' Hb Hls]; subst.
      * apply wf_lines_last; [|discriminate].
        intros [H|H]; [now apply Hc | now apply Hb].
      * apply (wf_lines_cons (c :: body)); [|exact Hls].
        intros [H|H]; [now apply Hc | now apply Hb].
Qed.

Lemma readlines_writelines (lines : list str) :
  wf_lines lines -> readlines (writelines lines) = lines.
Proof.
  unfold writelines.
  induction 1 as [|body Hb Hne|body ls Hb Hls IH]; cbn [List.concat].
  - reflexivity.
  - rewrite app_nil_r. now apply readlines_last.
  - rewrite readlines_line by assumption. now rewrite IH.
Qed.

Lemma writelines_readlines (s : str) : writelines (readlines s) = s.
Proof.
  unfold writelines. induction s as [|c s IH]; cbn [readlines]; [reflexivity|].
  destruct (c =? LF)%N.
  - cbn [List.concat app]. now rewrite IH.
  - destruct (readlines s) as [|l ls]; cbn [List.concat app] in *;
      now rewrite <- IH.
Qed.

End LineFacts.

(** ** The [.env] update, line by line *)

Module EnvFacts.

Import Env.

Lemma update_loop_map (lines updated_lines : list str) :
  update_loop lines updated_lines = updated_lines ++ map env_line lines.
Proof.
  revert updated_lines. induction lines as [|line rest IH]; intros acc.
  - cbn. now rewrite app_nil_r.
  - cbn [update_loop map]. rewrite IH, <- app_assoc. reflexivity.
Qed.

Lemma hash_not_connection (stripped : str) :
  startswith stripped (py "#") = true ->
  startswith stripped (py "DB_CONNECTION") = false.
Proof.
  destruct stripped as [|c s]; [discriminate|].
  py_eval. cbn [startswith]. intros [H _]%andb_true_iff.
  apply N.eqb_eq in H. subst c. reflexivity.
Qed.

Lemma env_line_cases (line : str) :
  (env_line line = line /\
   (startswith (strip line) (py "DB_CONNECTION") = true \/
    commented_key (strip line) = false)) \/
  In (env_line line) rewritten_lines.
Proof.
  unfold env_line, commented_key, mentions_key, rewritten_lines. cbv zeta.
  split_if.
  { split_if; [right; cbn; tauto | left; split; [reflexivity | now left]]. }
  do 5 (split_if; [right; cbn; tauto|]).
  do 5 (split_if; [right; cbn; tauto|]).
  left. split; [reflexivity|]. right.
  destruct (startswith (strip line) (py "#")); [|reflexivity].
  cbn [andb] in *.
  repeat match goal with H : ?x = false |- _ => rewrite H; clear H end.
  reflexivity.
Qed.

Lemma update_env_lines (content : str) :
  readlines (update_env content) = map env_line (readlines content).
Proof.
  unfold update_env. cbv zeta. rewrite update_loop_map. cbn [app].
  apply readlines_writelines.
  generalize (readlines_wf content). generalize (readlines content).
  assert (Hr : forall l, In l rewritten_lines ->
                 exists body, ~ In LF body /\ l = body ++ nl).
  { intros l Hl. unfold rewritten_lines in Hl. cbn [In] in Hl.
    decompose [or] Hl; try easy; subst l; eexists; (split; [|reflexivity]);
      vm_compute; intuition discriminate. }
  intros lines. induction 1 as [|body Hb Hne|body ls Hb Hls IH]; cbn [map].
  - constructor.
  - destruct (env_line_cases body) as [[-> _]|Hin].
    + now constructor.
    + destruct (Hr _ Hin) as (b' & Hb' & ->). now repeat constructor.
  - destruct (env_line_cases (body ++ nl)) as [[-> _]|Hin].
    + now constructor.
    + destruct (Hr _ Hin) as (b' & Hb' & ->). now constructor.
Qed.

Lemma env_line_idempotent (line : str) :
  env_line (env_line line) = env_line line.
Proof.
  destruct (env_line_cases line) as [[H _]|Hin].
  - now rewrite !H.
  - unfold rewritten_lines in Hin. cbn [In] in Hin.
    decompose [or] Hin; try easy;
      match goal with H : _ = env_line line |- _ => rewrite <- H end;
      vm_compute; reflexivity.
Qed.

Lemma env_line_commented (line : str) :
  startswith (strip line) (py "#") = true ->
  env_line line =
    if contains (py "DB_HOST") (strip line) then py "DB_HOST=pgsql" ++ nl
    else if contains (py "DB_PORT") (strip line) then py "DB_PORT=5432" ++ nl
    else if contains (py "DB_DATABASE") (strip line)
         then py "DB_DATABASE=laravel" ++ nl
    else if contains (py "DB_USERNAME") (strip line)
         then py "DB_USERNAME=sail" ++ nl
    else if contains (py "DB_PASSWORD") (strip line)
         then py "DB_PASSWORD=password" ++ nl
    else line.
Proof.
  intros H. unfold env_line. cbv zeta.
  rewrite (hash_not_connection _ H), H. cbn [andb].
  do 5 (split_if; [reflexivity|]).
  destruct (strip line) as [|c s]; [discriminate|].
  revert H. py_eval. cbn [startswith]. intros [Hc _]%andb_true_iff.
  apply N.eqb_eq in Hc. subst c. reflexivity.
Qed.

(** No line of the result is a commented line that names [key], for each of
    the five keys. *)
Lemma env_line_not_commented_key (line : str) :
  commented_key (strip (env_line line)) = false.
Proof.
  destruct (env_line_cases line) as [[-> [H|H]]|Hin].
  - unfold commented_key.
    destruct (startswith (strip line) (py "#")) eqn:E; [|reflexivity].
    apply hash_not_connection in E. congruence.
  - exact H.
  - unfold rewritten_lines in Hin. cbn [In] in Hin.
    decompose [or] Hin; try easy;
      match goal with H : _ = env_line line |- _ => rewrite <- H end;
      vm_compute; reflexivity.
Qed.

(** C1, as stated, fails: the value [mysql_replica] is neither [mysql] nor
    [sqlite], and the line is rewritten all the same, because the test is
    whether the stripped line holds the text [=mysql]. *)
Lemma db_connection_other_value_rewritten :
  startswith (strip (py "DB_CONNECTION=mysql_replica" ++ nl))
    (py "DB_CONNECTION") = true /\
  strip (py "DB_CONNECTION=mysql_replica" ++ nl) =
    py "DB_CONNECTION=" ++ py "mysql_replica" /\
  py "mysql_replica" <> py "mysql" /\
  py "mysql_replica" <> py "sqlite" /\
  env_line (py "DB_CONNECTION=mysql_replica" ++ nl) =
    py "DB_CONNECTION=pgsql" ++ nl /\
  env_line (py "DB_CONNECTION=mysql_replica" ++ nl) <>
    py "DB_CONNECTION=mysql_replica" ++ nl.
Proof. vm_compute. repeat split; discriminate. Qed.

(** C1, amended.  For a line whose stripped text starts with
    [DB_CONNECTION]: when the stripped text holds [=mysql] or [=sqlite]
    anywhere, the line becomes [DB_CONNECTION=pgsql] and a line end;
    otherwise it is kept as it is.  So a line whose value is exactly [mysql]
    or [sqlite] is rewritten, and the line [DB_CONNECTION=pgsql] is kept. *)
Theorem db_connection_rule (line : str) :
  startswith (strip line) (py "DB_CONNECTION") = true ->
  (contains (py "=mysql") (strip line) || contains (py "=sqlite") (strip line)
     = true -> env_line line = py "DB_CONNECTION=pgsql" ++ nl) /\
  (contains (py "=mysql") (strip line) || contains (py "=sqlite") (strip line)
     = false -> env_line line = line) /\
  (forall key,
      strip line = key ++ py "=mysql" \/ strip line = key ++ py "=sqlite" ->
      env_line line = py "DB_CONNECTION=pgsql" ++ nl) /\
  (strip line = py "DB_CONNECTION=pgsql" -> env_line line = line).
Proof.
  intros H.
  assert (Ht : contains (py "=mysql") (strip line) ||
               contains (py "=sqlite") (strip line) = true ->
               env_line line = py "DB_CONNECTION=pgsql" ++ nl).
  { intros Hc. unfold env_line. cbv zeta. now rewrite H, Hc. }
  assert (Hf : contains (py "=mysql") (strip line) ||
               contains (py "=sqlite") (strip line) = false ->
               env_line line = line).
  { intros Hc. unfold env_line. cbv zeta. now rewrite H, Hc. }
  repeat split; [exact Ht | exact Hf | |].
  - intros key [E|E]; apply Ht; rewrite E.
    + now rewrite contains_suffix.
    + rewrite (contains_suffix (py "=sqlite")). apply orb_true_r.
  - intros E. apply Hf. rewrite E. vm_compute. reflexivity.
Qed.

Lemma db_connection_rule_witness :
  env_line (py "DB_CONNECTION=sqlite" ++ nl) = py "DB_CONNECTION=pgsql" ++ nl.
Proof.
  apply (db_connection_rule (py "DB_CONNECTION=sqlite" ++ nl));
    vm_compute; reflexivity.
Defined.

(** C2.  A line whose stripped text starts with [#] and names one of the
    five keys becomes that key, uncommented, with its fixed value (the
    first of DB_HOST, DB_PORT, DB_DATABASE, DB_USERNAME, DB_PASSWORD that
    the line names).  A commented DB_HOST line becomes [DB_HOST=pgsql],
    written [#DB_HOST=...] or [# DB_HOST=...].  A file with the line
    [# DB_PORT=3306] has the line [DB_PORT=5432] afterwards, and none of its
    lines is a commented line naming DB_PORT. *)
Theorem commented_keys_uncommented :
  (forall line,
      startswith (strip line) (py "#") = true ->
      (contains (py "DB_HOST") (strip line) = true ->
       env_line line = py "DB_HOST=pgsql" ++ nl) /\
      (contains (py "DB_HOST") (strip line) = false ->
       contains (py "DB_PORT") (strip line) = true ->
       env_line line = py "DB_PORT=5432" ++ nl) /\
      (contains (py "DB_HOST") (strip line) = false ->
       contains (py "DB_PORT") (strip line) = false ->
       contains (py "DB_DATABASE") (strip line) = true ->
       env_line line = py "DB_DATABASE=laravel" ++ nl) /\
      (contains (py "DB_HOST") (strip line) = false ->
       contains (py "DB_PORT") (strip line) = false ->
       contains (py "DB_DATABASE") (strip line) = false ->
       contains (py "DB_USERNAME") (strip line) = true ->
       env_line line = py "DB_USERNAME=sail" ++ nl) /\
      (contains (py "DB_HOST") (strip line) = false ->
       contains (py "DB_PORT") (strip line) = false ->
       contains (py "DB_DATABASE") (strip line) = false ->
       contains (py "DB_USERNAME") (strip line) = false ->
       contains (py "DB_PASSWORD") (strip line) = true ->
       env_line line = py "DB_PASSWORD=password" ++ nl)) /\
  (forall value,
      env_line (py "#DB_HOST=" ++ value) = py "DB_HOST=pgsql" ++ nl /\
      env_line (py "# DB_HOST=" ++ value) = py "DB_HOST=pgsql" ++ nl) /\
  (forall content line,
      In line (readlines content) ->
      strip line = py "# DB_PORT=3306" ->
      In (py "DB_PORT=5432" ++ nl) (readlines (update_env content)) /\
      forall l, In l (readlines (update_env content)) ->
        startswith (strip l) (py "#") && contains (py "DB_PORT") (strip l)
        = false).
Proof.
  split; [|split].
  - intros line H. rewrite (env_line_commented _ H).
    repeat split; intros;
      repeat match goal with E : contains _ _ = _ |- _ => rewrite E; clear E end;
      reflexivity.
  - intros value.
    assert (G : forall p, contains (py "DB_HOST") p = true ->
                  startswith p (py "#") = true ->
                  strip (p ++ value) = p ++ rstrip value ->
                  env_line (p ++ value) = py "DB_HOST=pgsql" ++ nl).
    { intros p Hc Hs E. rewrite env_line_commented; rewrite E.
      - now rewrite contains_app_l.
      - apply startswith_inv in Hs as [t ->]. rewrite <- app_assoc.
        apply startswith_app. }
    split; apply G; try (vm_compute; reflexivity);
      apply strip_literal; vm_compute; reflexivity.
  - intros content line Hin Hs. rewrite update_env_lines. split.
    + replace (py "DB_PORT=5432" ++ nl) with (env_line line).
      * now apply in_map.
      * unfold env_line. cbv zeta. rewrite Hs. vm_compute. reflexivity.
    + intros l (l0 & <- & _)%in_map_iff.
      pose proof (env_line_not_commented_key l0) as Hk.
      unfold commented_key, mentions_key in Hk.
      destruct (startswith (strip (env_line l0)) (py "#")); [|reflexivity].
      cbn [andb] in *.
      destruct (contains (py "DB_PORT") (strip (env_line l0)));
        [|reflexivity].
      now rewrite orb_true_r in Hk.
Qed.

Lemma commented_keys_uncommented_witness :
  In (py "DB_PORT=5432" ++ nl)
    (readlines (update_env (py "APP_NAME=Laravel" ++ nl ++
                            py "# DB_PORT=3306" ++ nl))).
Proof.
  apply (proj2 (proj2 commented_keys_uncommented)
           (py "APP_NAME=Laravel" ++ nl ++ py "# DB_PORT=3306" ++ nl)
           (py "# DB_PORT=3306" ++ nl)).
  - vm_compute. right. left. reflexivity.
  - vm_compute. reflexivity.
Defined.

Lemma contains_rstrip (a v : str) :
  contains a (rstrip v) = true -> contains a v = true.
Proof.
  intros H. destruct (rstrip_prefix v) as [w E]. rewrite E.
  now apply contains_app_l.
Qed.

Lemma key_not_in_literal (key p v : str) :
  border p key = false -> contains key p = false ->
  contains key v = false -> contains key (p ++ rstrip v) = false.
Proof.
  intros Hb Hp Hv. destruct (contains key (p ++ rstrip v)) eqn:E; [|reflexivity].
  apply contains_app_inv in E; [|assumption..].
  apply contains_rstrip in E. congruence.
Qed.

Lemma commented_literal_kept (p value : str) :
  startswith p (py "#") = true ->
  match rev p with c :: _ => isspace c | [] => true end = false ->
  forallb (fun key => negb (border p key) && negb (contains key p))
    [py "DB_HOST"; py "DB_PORT"; py "DB_DATABASE"; py "DB_USERNAME";
     py "DB_PASSWORD"] = true ->
  mentions_key value = false ->
  env_line (p ++ value) = p ++ value.
Proof.
  intros Hs Hl Hk Hv.
  assert (E : strip (p ++ value) = p ++ rstrip value).
  { apply strip_literal; [|exact Hl].
    destruct p as [|c p]; [discriminate|].
    revert Hs. py_eval. cbn [startswith]. intros [Hc _]%andb_true_iff.
    apply N.eqb_eq in Hc. now subst c. }
  rewrite env_line_commented; rewrite E.
  - cbn [forallb] in Hk. unfold mentions_key in Hv.
    repeat (apply andb_true_iff in Hk as [[?%negb_true_iff ?%negb_true_iff]
                                            %andb_true_iff Hk]).
    repeat (apply orb_false_iff in Hv as [Hv ?]).
    now rewrite !key_not_in_literal.
  - apply startswith_inv in Hs as [t ->]. rewrite <- app_assoc.
    apply startswith_app.
Qed.

(** C9, as stated, fails: this commented connection entry names DB_HOST
    in its remark, so the first uncomment branch fires and the line is
    replaced by [DB_HOST=pgsql]. *)
Lemma commented_connection_rewritten :
  startswith (strip (py "# DB_CONNECTION=mysql # DB_HOST must match" ++ nl))
    (py "# DB_CONNECTION=") = true /\
  env_line (py "# DB_CONNECTION=mysql # DB_HOST must match" ++ nl) =
    py "DB_HOST=pgsql" ++ nl /\
  env_line (py "# DB_CONNECTION=mysql # DB_HOST must match" ++ nl) <>
    py "# DB_CONNECTION=mysql # DB_HOST must match" ++ nl.
Proof. vm_compute. repeat split; discriminate. Qed.

(** C9, amended.  A line whose stripped text starts with [#] is never
    turned into [DB_CONNECTION=pgsql].  It is kept as it is when it names
    none of the five keys DB_HOST, DB_PORT, DB_DATABASE, DB_USERNAME,
    DB_PASSWORD, and when it names one of them it is replaced by one of the
    five fixed lines of these keys.  So a commented connection entry,
    [# DB_CONNECTION=...] or [#DB_CONNECTION=...], whose value names none of
    the five keys, passes unchanged, as [# DB_CONNECTION=mysql] does. *)
Theorem commented_connection_unchanged :
  (forall line,
      startswith (strip line) (py "#") = true ->
      env_line line <> py "DB_CONNECTION=pgsql" ++ nl /\
      (mentions_key (strip line) = false -> env_line line = line) /\
      (mentions_key (strip line) = true ->
       env_line line <> line /\
       In (env_line line)
         [py "DB_HOST=pgsql" ++ nl; py "DB_PORT=5432" ++ nl;
          py "DB_DATABASE=laravel" ++ nl; py "DB_USERNAME=sail" ++ nl;
          py "DB_PASSWORD=password" ++ nl])) /\
  (forall value,
      mentions_key value = false ->
      env_line (py "# DB_CONNECTION=" ++ value) =
        py "# DB_CONNECTION=" ++ value /\
      env_line (py "#DB_CONNECTION=" ++ value) =
        py "#DB_CONNECTION=" ++ value) /\
  env_line (py "# DB_CONNECTION=mysql" ++ nl) =
    py "# DB_CONNECTION=mysql" ++ nl.
Proof.
  split; [|split].
  - intros line H. rewrite (env_line_commented _ H). split; [|split].
    + do 5 (split_if; [vm_compute; discriminate|]).
      intros ->. vm_compute in H. discriminate.
    + unfold mentions_key. intros Hv.
      repeat (apply orb_false_iff in Hv as [Hv ?]).
      repeat match goal with E : contains _ _ = _ |- _ => rewrite E; clear E end.
      reflexivity.
    + unfold mentions_key. intros Hv.
      do 5 (split_if;
            [split;
             [intros E; rewrite <- E in H; vm_compute in H; discriminate
             |cbn [In]; repeat first [left; reflexivity | right]]|]).
      repeat match goal with
             | E : contains _ _ = false |- _ => rewrite E in Hv; clear E
             end.
      discriminate.
  - intros value Hv.
    split; apply commented_literal_kept; try assumption;
      vm_compute; reflexivity.
  - vm_compute. reflexivity.
Qed.

Lemma commented_connection_unchanged_witness :
  env_line (py "#DB_CONNECTION=" ++ (py "sqlite" ++ nl)) =
    py "#DB_CONNECTION=" ++ (py "sqlite" ++ nl).
Proof.
  apply (proj1 (proj2 commented_connection_unchanged) (py "sqlite" ++ nl)).
  vm_compute. reflexivity.
Defined.

(** C10.  The whole [.env] update, applied to its own result, returns it
    unchanged, whatever the file holds: each line the loop writes is kept by
    the loop. *)
Theorem update_env_idempotent (content : str) :
  update_env (update_env content) = update_env content.
Proof.
  assert (E : forall c, update_env c = writelines (map env_line (readlines c))).
  { intros c. unfold update_env. cbv zeta. now rewrite update_loop_map. }
  rewrite (E (update_env content)), update_env_lines, map_map, (E content).
  f_equal. apply map_ext. intros line. apply env_line_idempotent.
Qed.

End EnvFacts.

(** ** Line counts *)

Section LineCount.

Lemma readlines_nil_inv (s : str) : readlines s = [] -> s = [].
Proof.
  destruct s as [|c s]; [reflexivity|]. cbn [readlines].
  destruct (c =? LF)%N; [discriminate|].
  destruct (readlines s); discriminate.
Qed.

Lemma last_app_nonempty (a b : str) (d : char) :
  b <> [] -> last (a ++ b) d = last b d.
Proof.
  intros Hb. induction a as [|x a IH]; [reflexivity|].
  cbn [app last]. destruct (a ++ b) eqn:E; [|exact IH].
  apply app_eq_nil in E as [_ E]. contradiction.
Qed.

(** The lines of a text are its line ends, and one more when the text does
    not end with a line end. *)
Lemma count_lines_newlines (s : str) :
  count_lines s = newlines s + (if (last s LF =? LF)%N then 0 else 1).
Proof.
  unfold count_lines, newlines.
  induction s as [|c s IH]; [reflexivity|].
  cbn [readlines]. destruct (N.eqb_spec c LF) as [->|Hc].
  - rewrite count_occ_cons_eq by reflexivity. cbn [List.length].
    rewrite IH. destruct s as [|d s]; reflexivity.
  - rewrite count_occ_cons_neq by assumption.
    destruct (readlines s) as [|l ls] eqn:E.
    + apply readlines_nil_inv in E. subst s. cbn.
      destruct (N.eqb_spec c LF); [contradiction | reflexivity].
    + cbn [List.length] in *. rewrite IH.
      destruct s as [|d s]; [discriminate | reflexivity].
Qed.

Variables old new : str.
Hypothesis old_nonempty : old <> [].
Hypothesis new_nonempty : new <> [].

Lemma Replaced_nil_iff (s r : str) :
  Replaced old new s r -> (s = [] <-> r = []).
Proof.
  intros H. destruct H as [|s r H|c s r Hc H]; split; try easy.
  - intros [E _]%app_eq_nil. contradiction.
  - intros [E _]%app_eq_nil. contradiction.
Qed.

Lemma Replaced_last (s r : str) :
  Replaced old new s r ->
  last old LF = last new LF -> last r LF = last s LF.
Proof.
  intros H Hl. induction H as [|s r H IH|c s r Hc H IH].
  - reflexivity.
  - destruct s as [|d s].
    + assert (r = []) as -> by now apply (Replaced_nil_iff _ _ H).
      now rewrite !app_nil_r.
    + assert (r <> []).
      { intros E. now apply (Replaced_nil_iff _ _ H) in E. }
      rewrite !last_app_nonempty by easy. exact IH.
  - destruct s as [|d s].
    + assert (r = []) as -> by now apply (Replaced_nil_iff _ _ H).
      reflexivity.
    + assert (r <> []).
      { intros E. now apply (Replaced_nil_iff _ _ H) in E. }
      destruct r as [|e r]; [contradiction|]. exact IH.
Qed.

Lemma Replaced_newlines_le (s r : str) :
  Replaced old new s r ->
  newlines old <= newlines new -> newlines s <= newlines r.
Proof.
  unfold newlines. intros H Hn. induction H as [|s r H IH|c s r Hc H IH].
  - apply le_n.
  - rewrite !count_occ_app. now apply Nat.add_le_mono.
  - destruct (N.eq_dec c LF) as [E|E].
    + rewrite !count_occ_cons_eq by assumption. now apply le_n_S.
    + rewrite !count_occ_cons_neq by assumption. exact IH.
Qed.

Lemma Replaced_newlines_eq (s r : str) :
  Replaced old new s r ->
  newlines old = newlines new -> newlines r = newlines s.
Proof.
  unfold newlines. intros H Hn. induction H as [|s r H IH|c s r Hc H IH].
  - reflexivity.
  - rewrite !count_occ_app. now rewrite IH, Hn.
  - destruct (N.eq_dec c LF) as [E|E].
    + rewrite !count_occ_cons_eq by assumption. now rewrite IH.
    + rewrite !count_occ_cons_neq by assumption. exact IH.
Qed.

Lemma replace_count_lines_eq (s : str) :
  last old LF = last new LF -> newlines old = newlines new ->
  count_lines (replace s old new) = count_lines s.
Proof.
  intros Hl Hn.
  pose proof (replace_Replaced old new s old_nonempty) as R.
  rewrite !count_lines_newlines.
  now rewrite (Replaced_last _ _ R Hl), (Replaced_newlines_eq _ _ R Hn).
Qed.

Lemma replace_count_lines_le (s : str) :
  last old LF = last new LF -> newlines old <= newlines new ->
  count_lines s <= count_lines (replace s old new).
Proof.
  intros Hl Hn.
  pose proof (replace_Replaced old new s old_nonempty) as R.
  rewrite !count_lines_newlines. rewrite (Replaced_last _ _ R Hl).
  apply Nat.add_le_mono_r. exact (Replaced_newlines_le _ _ R Hn).
Qed.

End LineCount.

(** ** Line counts of the three edited files *)

Module LineCounts.

Import Env Composer Vite.

(** C3, as stated, fails for [vite.config.js]: the step adds lines.  The
    config of a fresh project has 13 lines before the step and 22 after. *)
Lemma update_vite_adds_lines :
  count_lines fresh_vite_config = 13 /\
  count_lines (update_vite fresh_vite_config) = 22.
Proof. vm_compute. split; reflexivity. Qed.

(** C3, amended.  The [.env] update and the [composer.json] update keep the
    number of lines of the file, whatever it holds; the [vite.config.js]
    update inserts lines and removes none. *)
Theorem edits_line_count (content : str) :
  count_lines (update_env content) = count_lines content /\
  count_lines (update_composer content) = count_lines content /\
  count_lines content <= count_lines (update_vite content).
Proof.
  split; [|split].
  - unfold count_lines. rewrite EnvFacts.update_env_lines. apply length_map.
  - unfold update_composer.
    apply replace_count_lines_eq; try discriminate; reflexivity.
  - unfold update_vite.
    destruct (contains vue_import content); cbn [negb]; [apply le_n|].
    assert (H1 : count_lines content <=
                 count_lines (replace content laravel_import laravel_vue_import)).
    { apply replace_count_lines_le; try discriminate;
        [reflexivity | vm_compute; lia]. }
    destruct (contains vue_call _); cbn [negb]; [exact H1|].
    etransitivity; [exact H1|].
    apply replace_count_lines_le; try discriminate;
      [reflexivity | vm_compute; lia].
Qed.

End LineCounts.


(** ** Fail-fast sequencing and skipped edits *)

Module PipelineFacts.

Import Pipeline.

Section Facts.

Context {os : Type} (S : System os).
Variable script_dir : str.
Variables docker_compose_content app_css_content app_blade_content
  bootstrap_app_content app_js_content web_routes_content
  welcome_vue_content : str.

Let the_script : str -> list (M unit) :=
  script S script_dir docker_compose_content app_css_content
    app_blade_content bootstrap_app_content app_js_content
    web_routes_content welcome_vue_content.

Let the_main : M unit :=
  main S script_dir docker_compose_content app_css_content
    app_blade_content bootstrap_app_content app_js_content
    web_routes_content welcome_vue_content.

Lemma run_all_app (pre post : list (M (os := os) unit)) (w : world os) :
  run_all (pre ++ post) w =
  match run_all pre w with
  | (Ok _, w1) => run_all post w1
  | (Raised e, w1) => (Raised e, w1)
  end.
Proof.
  revert w. induction pre as [|s pre IH]; intros w; [reflexivity|].
  cbn [app run_all]. unfold bind.
  destruct (s w) as [[[]|e] w']; [apply IH | reflexivity].
Qed.

(** A statement that raises ends the run: the statements after it do
    nothing, and the world stays as the raising statement left it. *)
Lemma run_all_raises (pre post : list (M unit)) (s : M unit)
      (w w1 w2 : world os) (e : exn) :
  run_all pre w = (Ok tt, w1) ->
  s w1 = (Raised e, w2) ->
  run_all (pre ++ s :: post) w = (Raised e, w2).
Proof.
  intros Hpre Hs. rewrite run_all_app, Hpre.
  cbn [run_all]. unfold bind. now rewrite Hs.
Qed.

Lemma subprocess_run_fails (c : command) (w : world os)
      (r : proc_result) (s2 : os) :
  spawn S c (sys w) = (r, s2) -> r <> Exited 0 ->
  exists e,
    subprocess_run S c w =
    (Raised e, {| sys := s2; trace := trace w ++ [Spawned c] |}).
Proof.
  intros Hs Hr. unfold subprocess_run. rewrite Hs.
  destruct r as [[|p|p]|]; [contradiction | | |]; eexists; reflexivity.
Qed.

(** The nine commands of the script, by position: each is a
    [subprocess_run] statement directly followed by the [print] of its
    "completed" notice. *)
Lemma script_commands (project_name : str) :
  Forall (fun i =>
            exists c notice,
              the_script project_name =
              firstn i (the_script project_name) ++
              subprocess_run S c :: print notice ::
              skipn (i + 2) (the_script project_name))
    [1; 5; 9; 17; 20; 25; 28; 31; 42].
Proof. repeat constructor; eexists; eexists; reflexivity. Qed.

(** C4.  When a command of the script fails, by a return code other than
    zero or by not starting at all, the run ends there with the error: the
    trace of the whole run stops at the start of that command, so its
    "completed" notice is not printed, no later statement runs, and nothing
    is undone, the system staying as the failed command left it.  (When the
    command succeeds the notice is printed and the run goes on.) *)
Theorem fail_fast (project_name : str) (pre post : list (M unit))
        (c : command) (notice : str) (w0 w w1 : world os)
        (r : proc_result) (s2 : os) :
  input S (py "Project name: ") w0 = (Ok project_name, w) ->
  the_script project_name =
    pre ++ subprocess_run S c :: print notice :: post ->
  run_all pre w = (Ok tt, w1) ->
  spawn S c (sys w1) = (r, s2) ->
  (r = Exited 0 ->
   the_main w0 =
   run_all post
     {| sys := s2; trace := trace w1 ++ [Spawned c; Printed notice] |}) /\
  (r <> Exited 0 ->
   exists e,
     the_main w0 =
     (Raised e, {| sys := s2; trace := trace w1 ++ [Spawned c] |})).
Proof.
  intros Hin Hscript Hpre Hs.
  assert (E : the_main w0 =
              run_all (pre ++ subprocess_run S c :: print notice :: post) w).
  { unfold the_main, main, bind. rewrite Hin. fold the_script.
    now rewrite Hscript. }
  rewrite E. split.
  - intros ->. rewrite run_all_app, Hpre. cbn [run_all].
    unfold bind, subprocess_run, print, log. rewrite Hs. cbn [sys trace].
    now rewrite <- app_assoc.
  - intros Hr. destruct (subprocess_run_fails c w1 r s2 Hs Hr) as [e He].
    exists e. now apply run_all_raises with (w1 := w1).
Qed.

(** C6.  When the file to edit is missing ([.env], [composer.json] or
    [vite.config.js]), the edit prints its warning, touches nothing, raises
    nothing, and the run goes on with the statements that follow; these
    three edits are statements of the script.  A file that cannot be
    written, on the contrary, ends the run. *)
Theorem missing_target_skipped (project_name : str) (w : world os)
        (rest : list (M unit)) :
  (path_exists S (py ".env") (sys w) = false ->
   run_all (update_env_file S :: rest) w =
   run_all rest
     {| sys := sys w;
        trace := trace w ++ [Tested (py ".env");
                             Printed (py "Warning: .env file not found")] |}) /\
  (path_exists S (py "composer.json") (sys w) = false ->
   run_all (update_composer_file S :: rest) w =
   run_all rest
     {| sys := sys w;
        trace := trace w ++
                 [Tested (py "composer.json");
                  Printed (py "Warning: composer.json file not found")] |}) /\
  (path_exists S (py "vite.config.js") (sys w) = false ->
   run_all (update_vite_file S :: rest) w =
   run_all rest
     {| sys := sys w;
        trace := trace w ++
                 [Tested (py "vite.config.js");
                  Printed (py "Warning: vite.config.js file not found")] |}) /\
  (exists pre1 post1 pre2 post2 pre3 post3,
      the_script project_name = pre1 ++ update_env_file S :: post1 /\
      the_script project_name = pre2 ++ update_composer_file S :: post2 /\
      the_script project_name = pre3 ++ update_vite_file S :: post3) /\
  (forall path content,
      write_text S path content (sys w) = None ->
      run_all (write_file S path content :: rest) w =
      (Raised (OSError path),
       {| sys := sys w; trace := trace w ++ [Opened path (py "w")] |})).
Proof.
  repeat split.
  - intros H. cbn [run_all].
    unfold bind, update_env_file, bind, exists_, print, log. rewrite H.
    cbn [sys trace]. now rewrite <- app_assoc.
  - intros H. cbn [run_all].
    unfold bind, update_composer_file, bind, exists_, print, log. rewrite H.
    cbn [sys trace]. now rewrite <- app_assoc.
  - intros H. cbn [run_all].
    unfold bind, update_vite_file, bind, exists_, print, log. rewrite H.
    cbn [sys trace]. now rewrite <- app_assoc.
  - exists (firstn 15 (the_script project_name)),
           (skipn 16 (the_script project_name)),
           (firstn 23 (the_script project_name)),
           (skipn 24 (the_script project_name)),
           (firstn 36 (the_script project_name)),
           (skipn 37 (the_script project_name)).
    repeat split; reflexivity.
  - intros path content H. cbn [run_all].
    unfold bind, write_file, attempt, log. now rewrite H.
Qed.

End Facts.

Lemma fail_fast_witness :
  exists e,
    main bare_machine [] [] [] [] [] [] [] [] boot =
    (Raised e,
     {| sys := tt;
        trace := [Asked (py "Project name: ");
                  Printed (py "Installing Laravel installer...");
                  Spawned (Argv [py "composer"; py "global"; py "require";
                                 py "laravel/installer"])] |}).
Proof.
  apply (proj2 (fail_fast bare_machine [] [] [] [] [] [] [] []
                  (py "blog")
                  [print (py "Installing Laravel installer...")]
                  (skipn 3 (script bare_machine [] [] [] [] [] [] [] []
                              (py "blog")))
                  (Argv [py "composer"; py "global"; py "require";
                         py "laravel/installer"])
                  (py "Laravel installer installed successfully")
                  boot
                  {| sys := tt; trace := [Asked (py "Project name: ")] |}
                  {| sys := tt;
                     trace := [Asked (py "Project name: ");
                               Printed (py "Installing Laravel installer...")] |}
                  LaunchFailed tt
                  eq_refl eq_refl eq_refl eq_refl)).
  discriminate.
Defined.

Lemma missing_target_skipped_witness :
  run_all [update_env_file bare_machine] boot =
  (Ok tt,
   {| sys := tt;
      trace := [Tested (py ".env");
                Printed (py "Warning: .env file not found")] |}).
Proof.
  apply (proj1 (missing_target_skipped bare_machine [] [] [] [] [] [] [] []
                  (py "blog") boot [])).
  reflexivity.
Defined.

End PipelineFacts.

(** ** The [.env] update: the overwrite branches and what is left alone *)

Module EnvRules.

Import Env.

Lemma contains_strip (a line : str) :
  contains a (strip line) = true -> contains a line = true.
Proof.
  unfold strip. intros H%EnvFacts.contains_rstrip.
  destruct (lstrip_suffix line) as [w E]. rewrite E.
  now apply contains_app_r.
Qed.

Lemma readlines_infix (l content : str) :
  In l (readlines content) -> exists u v, content = u ++ l ++ v.
Proof.
  intros (l1 & l2 & E)%in_split.
  exists (List.concat l1), (List.concat l2).
  rewrite <- (writelines_readlines content), E. unfold writelines.
  rewrite concat_app. reflexivity.
Qed.

(** The five overwrite branches, reached by a line that starts with the key
    and [=]: the branches before them do not fire on such a line. *)
Lemma env_line_overwrite (line : str) :
  (startswith (strip line) (py "DB_HOST=") = true ->
   env_line line = py "DB_HOST=pgsql" ++ nl) /\
  (startswith (strip line) (py "DB_PORT=") = true ->
   env_line line = py "DB_PORT=5432" ++ nl) /\
  (startswith (strip line) (py "DB_DATABASE=") = true ->
   env_line line = py "DB_DATABASE=laravel" ++ nl) /\
  (startswith (strip line) (py "DB_USERNAME=") = true ->
   env_line line = py "DB_USERNAME=sail" ++ nl) /\
  (startswith (strip line) (py "DB_PASSWORD=") = true ->
   env_line line = py "DB_PASSWORD=password" ++ nl).
Proof.
  repeat split; intros [t E]%startswith_inv;
    unfold env_line; cbv zeta; rewrite E; py_eval; cbn [app];
    cbn [startswith N.eqb Pos.eqb andb]; rewrite ?startswith_nil;
    reflexivity.
Qed.

(** A line that does not hold the text [DB_] takes the last branch. *)
Lemma env_line_without_db (line : str) :
  contains (py "DB_") (strip line) = false -> env_line line = line.
Proof.
  intros Hn.
  assert (P : forall p, contains (py "DB_") p = true ->
                startswith (strip line) p = false).
  { intros p Hp. destruct (startswith (strip line) p) eqn:E; [|reflexivity].
    apply contains_startswith in E.
    now rewrite (contains_trans _ _ _ Hp E) in Hn. }
  assert (Q : forall p, contains (py "DB_") p = true ->
                contains p (strip line) = false).
  { intros p Hp. destruct (contains p (strip line)) eqn:E; [|reflexivity].
    now rewrite (contains_trans _ _ _ Hp E) in Hn. }
  unfold env_line. cbv zeta.
  rewrite (P (py "DB_CONNECTION")), (Q (py "DB_HOST")), (Q (py "DB_PORT")),
    (Q (py "DB_DATABASE")), (Q (py "DB_USERNAME")), (Q (py "DB_PASSWORD")),
    (P (py "DB_HOST=")), (P (py "DB_PORT=")), (P (py "DB_DATABASE=")),
    (P (py "DB_USERNAME=")), (P (py "DB_PASSWORD="))
    by (vm_compute; reflexivity).
  rewrite !andb_false_r. reflexivity.
Qed.

(** X1.  A line whose stripped text starts with one of [DB_HOST=],
    [DB_PORT=], [DB_DATABASE=], [DB_USERNAME=], [DB_PASSWORD=] is replaced
    by that key with its fixed value and a line end, whatever value and
    indentation it had. *)
Theorem uncommented_keys_overwritten (line : str) :
  (startswith (strip line) (py "DB_HOST=") = true ->
   env_line line = py "DB_HOST=pgsql" ++ nl) /\
  (startswith (strip line) (py "DB_PORT=") = true ->
   env_line line = py "DB_PORT=5432" ++ nl) /\
  (startswith (strip line) (py "DB_DATABASE=") = true ->
   env_line line = py "DB_DATABASE=laravel" ++ nl) /\
  (startswith (strip line) (py "DB_USERNAME=") = true ->
   env_line line = py "DB_USERNAME=sail" ++ nl) /\
  (startswith (strip line) (py "DB_PASSWORD=") = true ->
   env_line line = py "DB_PASSWORD=password" ++ nl).
Proof.
  repeat split; intros [t E]%startswith_inv;
    unfold env_line; cbv zeta; rewrite E; py_eval; cbn [app];
    cbn [startswith N.eqb Pos.eqb andb]; rewrite ?startswith_nil;
    reflexivity.
Qed.

Lemma uncommented_keys_overwritten_witness :
  env_line (py "   DB_PORT=3306  " ++ nl) = py "DB_PORT=5432" ++ nl.
Proof.
  apply (proj1 (proj2 (uncommented_keys_overwritten
                         (py "   DB_PORT=3306  " ++ nl)))).
  vm_compute. reflexivity.
Defined.

(** X2.  A file that nowhere holds the text [DB_] comes out of the update
    exactly as it was. *)
Theorem update_env_without_db (content : str) :
  contains (py "DB_") content = false -> update_env content = content.
Proof.
  intros Hn.
  assert (E : update_env content = writelines (map env_line (readlines content))).
  { unfold update_env. cbv zeta. now rewrite EnvFacts.update_loop_map. }
  rewrite E. rewrite <- (writelines_readlines content) at 2. f_equal.
  rewrite <- (map_id (readlines content)) at 2.
  apply map_ext_in. intros l Hl. apply env_line_without_db.
  destruct (contains (py "DB_") (strip l)) eqn:Hc; [|reflexivity].
  apply contains_strip in Hc.
  destruct (readlines_infix _ _ Hl) as (u & v & Ec).
  rewrite Ec in Hn.
  assert (contains (py "DB_") (u ++ l ++ v) = true)
    by now apply contains_app_r, contains_app_l.
  congruence.
Qed.

Lemma update_env_without_db_witness :
  update_env (py "APP_NAME=Laravel" ++ nl ++ py "REDIS_HOST=127.0.0.1") =
  py "APP_NAME=Laravel" ++ nl ++ py "REDIS_HOST=127.0.0.1".
Proof.
  apply (update_env_without_db
           (py "APP_NAME=Laravel" ++ nl ++ py "REDIS_HOST=127.0.0.1")).
  vm_compute. reflexivity.
Defined.

(** X3.  After the update every line that starts with one of the five keys
    and [=] carries the fixed value, and no line that starts with
    [DB_CONNECTION] holds [=mysql] or [=sqlite]. *)
Theorem update_env_settles (content l : str) :
  In l (readlines (update_env content)) ->
  (startswith (strip l) (py "DB_HOST=") = true ->
   l = py "DB_HOST=pgsql" ++ nl) /\
  (startswith (strip l) (py "DB_PORT=") = true ->
   l = py "DB_PORT=5432" ++ nl) /\
  (startswith (strip l) (py "DB_DATABASE=") = true ->
   l = py "DB_DATABASE=laravel" ++ nl) /\
  (startswith (strip l) (py "DB_USERNAME=") = true ->
   l = py "DB_USERNAME=sail" ++ nl) /\
  (startswith (strip l) (py "DB_PASSWORD=") = true ->
   l = py "DB_PASSWORD=password" ++ nl) /\
  (startswith (strip l) (py "DB_CONNECTION") = true ->
   contains (py "=mysql") (strip l) = false /\
   contains (py "=sqlite") (strip l) = false).
Proof.
  rewrite EnvFacts.update_env_lines. intros (l0 & <- & _)%in_map_iff.
  pose proof (EnvFacts.env_line_idempotent l0) as Fix.
  destruct (env_line_overwrite (env_line l0)) as (H1 & H2 & H3 & H4 & H5).
  repeat split; try (intros H; rewrite <- Fix; auto).
  - destruct (contains (py "=mysql") (strip (env_line l0))) eqn:E;
      [|reflexivity].
    unfold env_line in Fix at 1. cbv zeta in Fix. rewrite H, E in Fix.
    cbn [orb] in Fix. rewrite <- Fix in E. vm_compute in E. discriminate.
  - destruct (contains (py "=sqlite") (strip (env_line l0))) eqn:E;
      [|reflexivity].
    unfold env_line in Fix at 1. cbv zeta in Fix. rewrite H, E in Fix.
    rewrite orb_true_r in Fix. rewrite <- Fix in E. vm_compute in E.
    discriminate.
Qed.

Lemma update_env_settles_witness :
  In (py "DB_CONNECTION=pgsql" ++ nl)
    (readlines (update_env (py "DB_CONNECTION=sqlite" ++ nl ++
                            py "# DB_HOST=127.0.0.1"))) /\
  startswith (strip (py "DB_CONNECTION=pgsql" ++ nl)) (py "DB_CONNECTION")
    = true /\
  contains (py "=mysql") (strip (py "DB_CONNECTION=pgsql" ++ nl)) = false /\
  contains (py "=sqlite") (strip (py "DB_CONNECTION=pgsql" ++ nl)) = false.
Proof.
  assert (Hin : In (py "DB_CONNECTION=pgsql" ++ nl)
                  (readlines (update_env (py "DB_CONNECTION=sqlite" ++ nl ++
                                          py "# DB_HOST=127.0.0.1"))))
    by (vm_compute; left; reflexivity).
  assert (Hs : startswith (strip (py "DB_CONNECTION=pgsql" ++ nl))
                 (py "DB_CONNECTION") = true)
    by (vm_compute; reflexivity).
  split; [exact Hin|]. split; [exact Hs|].
  exact (proj2 (proj2 (proj2 (proj2 (proj2
           (update_env_settles _ _ Hin))))) Hs).
Defined.

(** X4.  The update works line by line: the file keeps its lines in number
    and order, and each line of the result is the line of the input at the
    same place, or else one of the six fixed lines, written in place of a
    line that holds the text [DB_]. *)
Theorem update_env_line_by_line (content : str) :
  Forall2 (fun l l' =>
             l' = l \/
             (In l' rewritten_lines /\ contains (py "DB_") (strip l) = true))
    (readlines content) (readlines (update_env content)).
Proof.
  rewrite EnvFacts.update_env_lines.
  induction (readlines content) as [|l ls IH]; cbn [map]; constructor;
    [|exact IH].
  destruct (contains (py "DB_") (strip l)) eqn:E.
  - destruct (EnvFacts.env_line_cases l) as [[H _]|H]; [now left | now right].
  - left. now apply env_line_without_db.
Qed.

End EnvRules.

(** ** The substring edits: when they change the file, and what is there
       afterwards *)

Module SubstringRules.

Import Composer Vite.

(** X5.  The [composer.json] update changes the manifest exactly when the
    manifest holds [php artisan]; it then holds [./vendor/bin/sail artisan],
    and no [php artisan] is ever left. *)
Theorem update_composer_changes_iff (composer_content : str) :
  (update_composer composer_content = composer_content <->
   contains php_artisan composer_content = false) /\
  (contains php_artisan composer_content = true ->
   contains sail_artisan (update_composer composer_content) = true) /\
  contains php_artisan (update_composer composer_content) = false.
Proof.
  pose proof (replace_Replaced php_artisan sail_artisan composer_content
                SubstringEdits.php_artisan_nonempty) as R.
  pose proof (SubstringEdits.update_composer_no_php_artisan composer_content)
    as Hn.
  repeat split.
  - intros E. now rewrite E in Hn.
  - intros H. apply (Replaced_absent _ _ _ _ R H).
  - intros H.
    apply (Replaced_present _ _ _ _ R SubstringEdits.php_artisan_nonempty H).
  - exact Hn.
Qed.

Lemma update_composer_changes_iff_witness :
  contains sail_artisan (update_composer (py "test: @php artisan test")) = true.
Proof.
  apply (proj1 (proj2 (update_composer_changes_iff
                         (py "test: @php artisan test")))).
  vm_compute. reflexivity.
Defined.

(** With the anchor import and without the plugin import, the result holds
    the plugin import. *)
Lemma update_vite_inserts_import (vite_content : str) :
  contains vue_import vite_content = false ->
  contains laravel_import vite_content = true ->
  contains vue_import (update_vite vite_content) = true.
Proof.
  intros HM HA. unfold update_vite. rewrite HM. cbn [negb].
  pose proof (replace_Replaced laravel_import laravel_vue_import vite_content
                SubstringEdits.laravel_import_nonempty) as R1.
  set (c1 := replace vite_content laravel_import laravel_vue_import) in *.
  assert (M1 : contains vue_import c1 = true).
  { apply contains_trans with (b := laravel_vue_import).
    - vm_compute. reflexivity.
    - apply (Replaced_present _ _ _ _ R1
               SubstringEdits.laravel_import_nonempty HA). }
  destruct (contains vue_call c1); cbn [negb]; [exact M1|].
  apply (Replaced_keeps_occurrence laravel_call vue_laravel_call vue_import c1).
  - apply replace_Replaced, SubstringEdits.laravel_call_nonempty.
  - vm_compute. reflexivity.
  - exact M1.
Qed.

(** X6.  The [vite.config.js] update leaves the config as it is exactly in
    these cases: the plugin import is already there (whether or not the
    plugin is registered), or the anchor import is missing and either the
    text [vue({] is there or the anchor call is missing. *)
Theorem update_vite_unchanged_iff (vite_content : str) :
  update_vite vite_content = vite_content <->
  contains vue_import vite_content = true \/
  (contains laravel_import vite_content = false /\
   (contains vue_call vite_content = true \/
    contains laravel_call vite_content = false)).
Proof.
  pose proof (replace_Replaced laravel_import laravel_vue_import vite_content
                SubstringEdits.laravel_import_nonempty) as R1.
  pose proof (replace_Replaced laravel_call vue_laravel_call vite_content
                SubstringEdits.laravel_call_nonempty) as R2.
  split.
  - intros E.
    destruct (contains vue_import vite_content) eqn:HM; [now left|]. right.
    destruct (contains laravel_import vite_content) eqn:HA.
    { pose proof (update_vite_inserts_import _ HM HA) as H.
      rewrite E in H. congruence. }
    split; [reflexivity|].
    destruct (contains vue_call vite_content) eqn:HG; [now left|]. right.
    destruct (contains laravel_call vite_content) eqn:HL; [|reflexivity].
    unfold update_vite in E. rewrite HM in E. cbn [negb] in E.
    rewrite (Replaced_absent _ _ _ _ R1 HA) in E. rewrite HG in E.
    cbn [negb] in E.
    assert (contains vue_call vite_content = true); [|congruence].
    rewrite <- E. apply contains_trans with (b := vue_laravel_call).
    + vm_compute. reflexivity.
    + apply (Replaced_present _ _ _ _ R2
               SubstringEdits.laravel_call_nonempty HL).
  - intros [HM|[HA [HG|HL]]].
    + now apply SubstringEdits.update_vite_has_import.
    + now apply SubstringEdits.update_vite_no_anchor.
    + unfold update_vite.
      destruct (contains vue_import vite_content); [reflexivity|].
      cbn [negb]. rewrite (Replaced_absent _ _ _ _ R1 HA).
      destruct (contains vue_call vite_content); [reflexivity|].
      cbn [negb]. apply (Replaced_absent _ _ _ _ R2 HL).
Qed.

(** X7.  On a config that holds both anchors and neither the plugin import
    nor the text [vue({], the update leaves a config that holds the anchor
    import followed by the plugin import line, and the plugin block followed
    by the anchor call. *)
Theorem update_vite_adds_both (vite_content : str) :
  contains vue_import vite_content = false ->
  contains vue_call vite_content = false ->
  contains laravel_import vite_content = true ->
  contains laravel_call vite_content = true ->
  contains laravel_vue_import (update_vite vite_content) = true /\
  contains vue_laravel_call (update_vite vite_content) = true.
Proof.
  intros HM HG HA HL. unfold update_vite. rewrite HM. cbn [negb].
  pose proof (replace_Replaced laravel_import laravel_vue_import vite_content
                SubstringEdits.laravel_import_nonempty) as R1.
  set (c1 := replace vite_content laravel_import laravel_vue_import) in *.
  pose proof (replace_Replaced laravel_call vue_laravel_call c1
                SubstringEdits.laravel_call_nonempty) as R2.
  assert (I1 : contains laravel_vue_import c1 = true)
    by apply (Replaced_present _ _ _ _ R1
                SubstringEdits.laravel_import_nonempty HA).
  assert (G1 : contains vue_call c1 = false).
  { destruct (contains vue_call c1) eqn:E; [|reflexivity].
    apply (Replaced_no_new_occurrence _ _ _ _ _ R1) in E;
      [congruence | vm_compute; reflexivity]. }
  assert (L1 : contains laravel_call c1 = true).
  { apply (Replaced_keeps_occurrence _ _ _ _ _ R1); [|exact HL].
    vm_compute. reflexivity. }
  rewrite G1. cbn [negb]. split.
  - apply (Replaced_keeps_occurrence _ _ _ _ _ R2); [|exact I1].
    vm_compute. reflexivity.
  - apply (Replaced_present _ _ _ _ R2
             SubstringEdits.laravel_call_nonempty L1).
Qed.

Lemma update_vite_adds_both_witness :
  contains laravel_vue_import (update_vite fresh_vite_config) = true /\
  contains vue_laravel_call (update_vite fresh_vite_config) = true.
Proof.
  apply (update_vite_adds_both fresh_vite_config); vm_compute; reflexivity.
Defined.

End SubstringRules.

(** ** The trace of a run: what is started, in which order, and what a
       failed run ends with *)

Module TraceFacts.

Import Pipeline.

Section Behaviour.

Context {os : Type} (S : System os).

Lemma behaves_ret {A : Type} (f : event -> bool) (a : A) :
  behaves f [] (ret (os := os) a).
Proof.
  intros w. exists []. cbn. now rewrite app_nil_r.
Qed.

(** An operation that logs one event, and that returns when the event is a
    [print]. *)
Lemma behaves_prim {A : Type} (f : event -> bool) (e : event)
      (p : M (os := os) A) :
  (forall w, trace (snd (p w)) = trace w ++ [e] /\
             (is_print e = true -> is_ok (fst (p w)) = true)) ->
  behaves f (filter f [e]) p.
Proof.
  intros H w. destruct (H w) as [Ht Hok]. exists [e]. split; [exact Ht|].
  destruct (fst (p w)); [reflexivity|]. split.
  - exists []. now rewrite app_nil_r.
  - exists [], e. split; [reflexivity|].
    destruct (is_print e); [now discriminate Hok | reflexivity].
Qed.

Lemma behaves_bind {A B : Type} (f : event -> bool) (l1 l2 : list event)
      (c : M (os := os) A) (k : A -> M (os := os) B) :
  behaves f l1 c -> (forall a, behaves f l2 (k a)) ->
  behaves f (l1 ++ l2) (bind c k).
Proof.
  intros Hc Hk w. destruct (Hc w) as (e1 & T1 & P1). unfold bind.
  destruct (c w) as [[a|x] w1]; cbn [fst snd] in *.
  - destruct (Hk a w1) as (e2 & T2 & P2). exists (e1 ++ e2). split.
    + now rewrite T2, T1, app_assoc.
    + destruct (fst (k a w1)).
      * now rewrite filter_app, P1, P2.
      * destruct P2 as [[rest Hr] (evs' & ev & He & Hp)]. split.
        -- exists rest. now rewrite filter_app, P1, Hr, app_assoc.
        -- exists (e1 ++ evs'), ev. now rewrite He, app_assoc.
  - exists e1. split; [exact T1|]. destruct P1 as [[rest Hr] Hlast].
    split; [|exact Hlast]. exists (rest ++ l2). now rewrite Hr, app_assoc.
Qed.

Lemma quiet_bind {A B : Type} (f : event -> bool)
      (c : M (os := os) A) (k : A -> M (os := os) B) :
  behaves f [] c -> (forall a, behaves f [] (k a)) -> behaves f [] (bind c k).
Proof. intros Hc Hk. apply (behaves_bind f [] [] c k Hc Hk). Qed.

Lemma behaves_nil (f : event -> bool) : behaves f [] (run_all (os := os) []).
Proof. apply behaves_ret. Qed.

Lemma behaves_quiet_cons (f : event -> bool) (l : list event)
      (s : M unit) (rest : list (M (os := os) unit)) :
  behaves f [] s -> behaves f l (run_all rest) ->
  behaves f l (run_all (s :: rest)).
Proof. intros Hs Hr. apply (behaves_bind f [] l s _ Hs (fun _ => Hr)). Qed.

Lemma behaves_event_cons (f : event -> bool) (e : event) (l : list event)
      (s : M unit) (rest : list (M (os := os) unit)) :
  behaves f [e] s -> behaves f l (run_all rest) ->
  behaves f (e :: l) (run_all (s :: rest)).
Proof. intros Hs Hr. apply (behaves_bind f [e] l s _ Hs (fun _ => Hr)). Qed.

(** The operations of the script: each logs its one event. *)
Lemma print_logs (s : str) (w : world os) :
  trace (snd (print s w)) = trace w ++ [Printed s] /\
  (is_print (Printed s) = true -> is_ok (fst (print s w)) = true).
Proof. split; reflexivity. Qed.

Lemma input_logs (prompt : str) (w : world os) :
  trace (snd (input S prompt w)) = trace w ++ [Asked prompt] /\
  (is_print (Asked prompt) = true -> is_ok (fst (input S prompt w)) = true).
Proof.
  unfold input. destruct (read_input S (sys w)) as [[line|] s];
    split; (reflexivity || discriminate).
Qed.

Lemma subprocess_run_logs (c : command) (w : world os) :
  trace (snd (subprocess_run S c w)) = trace w ++ [Spawned c] /\
  (is_print (Spawned c) = true -> is_ok (fst (subprocess_run S c w)) = true).
Proof.
  unfold subprocess_run. destruct (spawn S c (sys w)) as [[[|p|p]|] s];
    split; (reflexivity || discriminate).
Qed.

Lemma attempt_logs (e : event) (path : str) (op : os -> option os)
      (w : world os) :
  is_print e = false ->
  trace (snd (attempt e path op w)) = trace w ++ [e] /\
  (is_print e = true -> is_ok (fst (attempt e path op w)) = true).
Proof.
  intros He. unfold attempt. destruct (op (sys w));
    (split; [reflexivity | congruence]).
Qed.

Lemma exists_logs (path : str) (w : world os) :
  trace (snd (exists_ S path w)) = trace w ++ [Tested path] /\
  (is_print (Tested path) = true -> is_ok (fst (exists_ S path w)) = true).
Proof. split; reflexivity. Qed.

Lemma is_file_logs (path : str) (w : world os) :
  trace (snd (is_file_ S path w)) = trace w ++ [Tested path] /\
  (is_print (Tested path) = true -> is_ok (fst (is_file_ S path w)) = true).
Proof. split; reflexivity. Qed.

Lemma is_dir_logs (path : str) (w : world os) :
  trace (snd (is_dir_ S path w)) = trace w ++ [Tested path] /\
  (is_print (Tested path) = true -> is_ok (fst (is_dir_ S path w)) = true).
Proof. split; reflexivity. Qed.

Lemma read_file_logs (path : str) (w : world os) :
  trace (snd (read_file S path w)) = trace w ++ [Opened path (py "r")] /\
  (is_print (Opened path (py "r")) = true ->
   is_ok (fst (read_file S path w)) = true).
Proof.
  unfold read_file. destruct (read_text S path (sys w));
    split; (reflexivity || discriminate).
Qed.

Lemma iterdir_logs (path : str) (w : world os) :
  trace (snd (iterdir_ S path w)) = trace w ++ [Listed path] /\
  (is_print (Listed path) = true -> is_ok (fst (iterdir_ S path w)) = true).
Proof.
  unfold iterdir_. destruct (iterdir S path (sys w));
    split; (reflexivity || discriminate).
Qed.

Lemma behaves_conv {A : Type} (f : event -> bool) (l l' : list event)
      (s : M (os := os) A) :
  behaves f l s -> l = l' -> behaves f l' s.
Proof. now intros H <-. Qed.

End Behaviour.

Ltac logs :=
  first [ apply print_logs | apply input_logs | apply subprocess_run_logs
        | apply exists_logs | apply is_file_logs | apply is_dir_logs
        | apply read_file_logs | apply iterdir_logs
        | apply attempt_logs; reflexivity ].

Ltac by_prim :=
  eapply behaves_conv;
  [ apply behaves_prim; intros ?; logs | reflexivity ].

Ltac quiet :=
  cbv beta delta [update_env_file update_composer_file update_vite_file
             write_app_css clear_views unlink_if_exists write_file os_chdir
             unlink_ rmtree_ mkdir_];
  lazymatch goal with
  | |- behaves _ _ (bind _ _) => apply quiet_bind; [quiet | intros ?; quiet]
  | |- behaves _ _ (if ?b then _ else _) => destruct b; quiet
  | |- behaves _ _ (ret _) => apply behaves_ret
  | |- behaves _ _ _ =>
      first [ assumption | by_prim
            | match goal with H : forall _, behaves _ _ _ |- _ => apply H end ]
  end.

Ltac walk :=
  repeat lazymatch goal with
         | |- behaves _ (_ :: _) (run_all (_ :: _)) =>
             first [ apply behaves_quiet_cons; [solve [quiet]|]
                   | apply behaves_event_cons; [solve [by_prim]|] ]
         | |- behaves _ [] (run_all (_ :: _)) =>
             apply behaves_quiet_cons; [solve [quiet]|]
         | |- behaves _ _ (run_all []) => apply behaves_nil
         end.

Section Blame.

Context {os : Type} (S : System os).














End Blame.




Section Runs.

Context {os : Type} (S : System os).
Variable script_dir : str.
Variables docker_compose_content app_css_content app_blade_content
  bootstrap_app_content app_js_content web_routes_content
  welcome_vue_content : str.

Let the_script : str -> list (M unit) :=
  script S script_dir docker_compose_content app_css_content
    app_blade_content bootstrap_app_content app_js_content
    web_routes_content welcome_vue_content.

Let the_main : M unit :=
  main S script_dir docker_compose_content app_css_content
    app_blade_content bootstrap_app_content app_js_content
    web_routes_content welcome_vue_content.

(** The loop over the entries of the views directory starts no command. *)
Lemma clear_files_quiet (files : list str) :
  behaves is_spawn [] (clear_files S files).
Proof.
  induction files as [|file rest IH]; cbn [clear_files].
  - apply behaves_ret.
  - quiet.
Qed.

(** The loop touches the listed entries only. *)
Lemma clear_files_touches (files : list str) (w : world os) :
  exists evs,
    trace (snd (clear_files S files w)) = trace w ++ evs /\
    Forall (fun e => exists p, In p files /\
                       (e = Tested p \/ e = Unlinked p \/ e = Rmtree p)) evs.
Proof.
  revert w. induction files as [|file rest IH]; intros w; cbn [clear_files].
  - exists []. cbn. rewrite app_nil_r. now split.
  - assert (Hw : forall w1 evs1,
               trace w1 = trace w ++ evs1 ->
               Forall (fun e => exists p, In p (file :: rest) /\
                          (e = Tested p \/ e = Unlinked p \/ e = Rmtree p))
                 evs1 ->
               exists evs,
                 trace (snd (clear_files S rest w1)) = trace w ++ evs /\
                 Forall (fun e => exists p, In p (file :: rest) /\
                            (e = Tested p \/ e = Unlinked p \/ e = Rmtree p))
                   evs).
    { intros w1 evs1 T1 F1. destruct (IH w1) as (evs2 & T2 & F2).
      exists (evs1 ++ evs2). split; [now rewrite T2, T1, app_assoc|].
      apply Forall_app. split; [exact F1|].
      eapply Forall_impl; [|exact F2].
      intros e (p & Hp & He). exists p. split; [now right | exact He]. }
    assert (Hf : forall evs1 : list event,
               Forall (fun e => e = Tested file \/ e = Unlinked file \/
                                e = Rmtree file) evs1 ->
               Forall (fun e => exists p, In p (file :: rest) /\
                          (e = Tested p \/ e = Unlinked p \/ e = Rmtree p))
                 evs1).
    { intros evs1. apply Forall_impl. intros e He. exists file.
      split; [now left | exact He]. }
    unfold bind, is_file_, is_dir_, unlink_, rmtree_, attempt, ret, log.
    cbn [sys trace fst snd].
    destruct (is_file S file (sys w)); cbn [sys trace fst snd].
    + destruct (unlink S file (sys w)) as [s1|]; cbn [sys trace fst snd].
      * apply Hw with (evs1 := [Tested file; Unlinked file]).
        -- cbn [trace]. now rewrite <- app_assoc.
        -- apply Hf. repeat constructor; tauto.
      * exists [Tested file; Unlinked file]. split.
        -- now rewrite <- app_assoc.
        -- apply Hf. repeat constructor; tauto.
    + destruct (is_dir S file (sys w)); cbn [sys trace fst snd].
      * destruct (rmtree S file (sys w)) as [s1|]; cbn [sys trace fst snd].
        -- apply Hw with (evs1 := [Tested file; Tested file; Rmtree file]).
           ++ cbn [trace]. now rewrite <- !app_assoc.
           ++ apply Hf. repeat constructor; tauto.
        -- exists [Tested file; Tested file; Rmtree file]. split.
           ++ now rewrite <- !app_assoc.
           ++ apply Hf. repeat constructor; tauto.
      * apply Hw with (evs1 := [Tested file; Tested file]).
        -- cbn [trace]. now rewrite <- app_assoc.
        -- apply Hf. repeat constructor; tauto.
Qed.

(** The commands of the script, as the trace of a run shows them. *)
Lemma script_spawns (project_name : str) :
  behaves is_spawn (map Spawned (commands project_name))
    (run_all (the_script project_name)).
Proof.
  pose proof clear_files_quiet as Hclear.
  unfold the_script, script, commands. cbn [map]. walk.
Qed.

Lemma setup_actions (project_name : str) :
  behaves is_action
    [Spawned (Argv [py "composer"; py "global"; py "require";
                    py "laravel/installer"]);
     Chdir script_dir;
     Spawned (Shell (py "laravel new " ++ project_name ++
                     py " --pest --boost --npm --no-interaction"));
     Chdir (joinpath S script_dir project_name)]
    (run_all (firstn 8 (the_script project_name))).
Proof. unfold the_script, script. cbn [firstn]. walk. Qed.

Lemma rest_appends (project_name : str) (w : world os) :
  exists evs,
    trace (snd (run_all (skipn 8 (the_script project_name)) w)) =
    trace w ++ evs.
Proof.
  assert (H : behaves is_spawn (skipn 2 (map Spawned (commands project_name)))
                (run_all (skipn 8 (the_script project_name)))).
  { pose proof clear_files_quiet as Hclear.
    unfold the_script, script, commands. cbn [map skipn]. walk. }
  destruct (H w) as (evs & T & _). now exists evs.
Qed.

(** X8.  In every run the commands the script starts are, in this order, a
    beginning of its nine commands (none when no project name can be read):
    a command is started only after all the commands before it have been
    started, and a run that returns has started all nine. *)
Theorem commands_in_order (w0 : world os) :
  exists evs,
    trace (snd (the_main w0)) = trace w0 ++ evs /\
    match fst (read_input S (sys w0)) with
    | None => filter is_spawn evs = []
    | Some project_name =>
        (exists rest,
            map Spawned (commands project_name) =
            filter is_spawn evs ++ rest) /\
        (is_ok (fst (the_main w0)) = true ->
         filter is_spawn evs = map Spawned (commands project_name))
    end.
Proof.
  unfold the_main, main, bind, input.
  destruct (read_input S (sys w0)) as [[name|] s]; cbn [fst].
  - fold (the_script name).
    destruct (script_spawns name (log (Asked (py "Project name: ")) s w0))
      as (evs & T & P).
    exists (Asked (py "Project name: ") :: evs). split.
    + rewrite T. cbn [log trace]. now rewrite <- app_assoc.
    + cbn [filter is_spawn].
      destruct (fst (run_all (the_script name)
                       (log (Asked (py "Project name: ")) s w0))).
      * split; [exists []; now rewrite app_nil_r | now intros _].
      * destruct P as [P _]. split; [exact P | discriminate].
  - exists [Asked (py "Project name: ")]. split; reflexivity.
Qed.




(** X10.  Nothing is done to the files of the project before the project
    exists: apart from printed lines, a run begins with the question for
    the name, the installer command, the change to the script directory,
    the [laravel new] command and the change into the project directory,
    in this order; a run that does not get through them raises and has done
    a beginning of them and nothing else. *)
Theorem project_created_first (w0 : world os) (project_name : str) :
  fst (read_input S (sys w0)) = Some project_name ->
  exists evs,
    trace (snd (the_main w0)) = trace w0 ++ evs /\
    ((exists rest,
         filter is_action evs =
         [Asked (py "Project name: ");
          Spawned (Argv [py "composer"; py "global"; py "require";
                         py "laravel/installer"]);
          Chdir script_dir;
          Spawned (Shell (py "laravel new " ++ project_name ++
                          py " --pest --boost --npm --no-interaction"));
          Chdir (joinpath S script_dir project_name)] ++ rest) \/
     (is_ok (fst (the_main w0)) = false /\
      exists rest,
        [Asked (py "Project name: ");
         Spawned (Argv [py "composer"; py "global"; py "require";
                        py "laravel/installer"]);
         Chdir script_dir;
         Spawned (Shell (py "laravel new " ++ project_name ++
                         py " --pest --boost --npm --no-interaction"));
         Chdir (joinpath S script_dir project_name)] =
        filter is_action evs ++ rest)).
Proof.
  intros Hin. unfold the_main, main, bind, input.
  destruct (read_input S (sys w0)) as [[name|] s]; cbn [fst] in Hin;
    [|discriminate].
  injection Hin as ->. fold (the_script project_name).
  set (w1 := log (Asked (py "Project name: ")) s w0).
  assert (E : the_script project_name =
              firstn 8 (the_script project_name) ++
              skipn 8 (the_script project_name))
    by (symmetry; apply firstn_skipn).
  rewrite E, PipelineFacts.run_all_app.
  destruct (setup_actions project_name w1) as (evs1 & T1 & P1).
  destruct (run_all (firstn 8 (the_script project_name)) w1)
    as [[[]|e] w2]; cbn [fst snd] in *.
  - destruct (rest_appends project_name w2) as (evs2 & T2).
    exists (Asked (py "Project name: ") :: evs1 ++ evs2). split.
    + rewrite T2, T1. unfold w1. cbn [log trace].
      now rewrite <- !app_assoc.
    + left. exists (filter is_action evs2).
      cbn [filter is_action is_print negb]. now rewrite filter_app, P1.
  - exists (Asked (py "Project name: ") :: evs1). split.
    + rewrite T1. unfold w1. cbn [log trace]. now rewrite <- app_assoc.
    + right. split; [reflexivity|]. destruct P1 as [[rest Hr] _].
      exists rest. cbn [filter is_action is_print negb app]. now rewrite Hr.
Qed.

(** X11.  The reset of [resources/views] removes nothing but entries that
    the listing of that directory returned: every [unlink] and every
    [rmtree] of the step is on a listed entry, and a run that finds the
    directory missing removes nothing. *)
Theorem clear_views_removes_listed (w : world os) :
  exists evs,
    trace (snd (clear_views S w)) = trace w ++ evs /\
    forall e, In e evs -> is_removal e = true ->
      path_exists S (py "resources/views") (sys w) = true /\
      exists files p,
        iterdir S (py "resources/views") (sys w) = Some files /\
        In p files /\ (e = Unlinked p \/ e = Rmtree p).
Proof.
  unfold clear_views, bind, exists_, iterdir_, mkdir_, attempt, log.
  cbn [sys trace fst snd].
  destruct (path_exists S (py "resources/views") (sys w)) eqn:Hex;
    cbn [sys trace fst snd].
  - destruct (iterdir S (py "resources/views") (sys w)) as [files|] eqn:Hls;
      cbn [sys trace fst snd].
    + match goal with
      | |- context [clear_files S files ?w1] =>
          destruct (clear_files_touches files w1) as (evs & T & F)
      end.
      exists ([Tested (py "resources/views"); Listed (py "resources/views")]
              ++ evs).
      split; [rewrite T; cbn [trace]; now rewrite <- !app_assoc|].
      intros e [<-|[<-|He]] Hr; try discriminate.
      split; [reflexivity|]. rewrite Forall_forall in F.
      destruct (F e He) as (p & Hp & [->|H]); [discriminate|].
      now exists files, p.
    + exists [Tested (py "resources/views"); Listed (py "resources/views")].
      split; [now rewrite <- app_assoc|].
      intros e [<-|[<-|[]]]; discriminate.
  - destruct (mkdir_parents S (py "resources/views") (sys w));
      (exists [Tested (py "resources/views"); Mkdir (py "resources/views")];
       split; [cbn [snd trace]; now rewrite <- app_assoc|];
       intros e [<-|[<-|[]]]; discriminate).
Qed.

End Runs.

Lemma commands_in_order_witness :
  exists evs,
    trace (snd (main ready_machine [] [] [] [] [] [] [] [] boot)) =
    trace boot ++ evs /\
    filter is_spawn evs = map Spawned (commands (py "blog")).
Proof.
  destruct (commands_in_order ready_machine [] [] [] [] [] [] [] [] boot)
    as (evs & T & _ & H).
  exists evs. split; [exact T|]. apply H. reflexivity.
Defined.


Lemma project_created_first_witness :
  exists evs,
    trace (snd (main bare_machine [] [] [] [] [] [] [] [] boot)) =
    trace boot ++ evs.
Proof.
  destruct (project_created_first bare_machine [] [] [] [] [] [] [] []
              boot (py "blog") eq_refl) as (evs & T & _).
  now exists evs.
Defined.

Lemma clear_views_removes_listed_witness :
  exists evs,
    trace (snd (clear_views bare_machine boot)) = trace boot ++ evs.
Proof.
  destruct (clear_views_removes_listed bare_machine boot) as (evs & T & _).
  now exists evs.
Defined.

End TraceFacts.

(** ** The footprint of a run *)

Module Footprint.

Import Pipeline TraceFacts.

Section Confined.

Context {os : Type} (S : System os).

Lemma confined_ret {A : Type} (P : event -> Prop) (a : A) :
  confined P (ret (os := os) a).
Proof. intros w. exists []. cbn. rewrite app_nil_r. now split. Qed.

Lemma confined_prim {A : Type} (P : event -> Prop) (e : event)
      (p : M (os := os) A) :
  (forall w, trace (snd (p w)) = trace w ++ [e] /\
             (is_print e = true -> is_ok (fst (p w)) = true)) ->
  P e -> confined P p.
Proof.
  intros H He w. destruct (H w) as [T _]. exists [e].
  split; [exact T | now constructor].
Qed.

Lemma confined_bind {A B : Type} (P : event -> Prop)
      (c : M (os := os) A) (k : A -> M (os := os) B) :
  confined P c -> (forall a, confined P (k a)) -> confined P (bind c k).
Proof.
  intros Hc Hk w. destruct (Hc w) as (e1 & T1 & F1). unfold bind.
  destruct (c w) as [[a|x] w1]; cbn [fst snd] in *.
  - destruct (Hk a w1) as (e2 & T2 & F2). exists (e1 ++ e2). split.
    + now rewrite T2, T1, app_assoc.
    + apply Forall_app. now split.
  - now exists e1.
Qed.

Lemma confined_run_all (P : event -> Prop)
      (statements : list (M (os := os) unit)) :
  Forall (confined P) statements -> confined P (run_all statements).
Proof.
  induction 1 as [|s rest Hs _ IH]; cbn [run_all].
  - apply confined_ret.
  - apply confined_bind; [exact Hs | intros _; exact IH].
Qed.

End Confined.

Ltac member := cbn [In]; repeat first [left; reflexivity | right].

Ltac footprint :=
  first [ exact I
        | left; split; [reflexivity | member]
        | right; split; [reflexivity | member]
        | left; reflexivity
        | right; reflexivity
        | member ].

Ltac confine :=
  cbv beta delta [update_env_file update_composer_file update_vite_file
                  write_app_css clear_views unlink_if_exists write_file
                  os_chdir unlink_ rmtree_ mkdir_];
  lazymatch goal with
  | |- confined _ (bind _ _) =>
      apply confined_bind; [confine | intros ?; confine]
  | |- confined _ (if ?b then _ else _) => destruct b; confine
  | |- confined _ (ret _) => apply confined_ret
  | |- confined _ _ =>
      first [ eapply confined_prim;
              [intros ?; logs | unfold in_footprint; footprint]
            | match goal with H : forall _, confined _ _ |- _ => apply H end ]
  end.

Section Runs.

Context {os : Type} (S : System os).
Variable script_dir : str.
Variables docker_compose_content app_css_content app_blade_content
  bootstrap_app_content app_js_content web_routes_content
  welcome_vue_content : str.

Let the_script : str -> list (M unit) :=
  script S script_dir docker_compose_content app_css_content
    app_blade_content bootstrap_app_content app_js_content
    web_routes_content welcome_vue_content.

Let the_main : M unit :=
  main S script_dir docker_compose_content app_css_content
    app_blade_content bootstrap_app_content app_js_content
    web_routes_content welcome_vue_content.

Lemma clear_files_confined (project_name : str) (files : list str) :
  confined (in_footprint S script_dir project_name) (clear_files S files).
Proof.
  intros w. destruct (clear_files_touches S files w) as (evs & T & F).
  exists evs. split; [exact T|]. eapply Forall_impl; [|exact F].
  intros e (p & _ & [-> | [-> | ->]]); exact I.
Qed.

(** X12.  A run does nothing outside what the script names: every file it
    opens for writing is one of ten fixed files, every file it opens for
    reading is [.env], [composer.json] or [vite.config.js], every
    directory it creates is one of five, it changes directory only to the
    script directory and to the project directory, and every command it
    starts is one of the nine. *)
Theorem run_within_footprint (w0 : world os) :
  exists evs,
    trace (snd (the_main w0)) = trace w0 ++ evs /\
    forall project_name,
      fst (read_input S (sys w0)) = Some project_name ->
      Forall (in_footprint S script_dir project_name) evs.
Proof.
  unfold the_main, main, bind, input.
  destruct (read_input S (sys w0)) as [[name|] s]; cbn [fst].
  - fold (the_script name).
    assert (H : confined (in_footprint S script_dir name)
                  (run_all (the_script name))).
    { pose proof (clear_files_confined name) as Hclear.
      apply confined_run_all. unfold the_script, script.
      repeat (constructor; [solve [confine]|]). constructor. }
    destruct (H (log (Asked (py "Project name: ")) s w0)) as (evs & T & F).
    exists (Asked (py "Project name: ") :: evs). split.
    + rewrite T. cbn [log trace]. now rewrite <- app_assoc.
    + intros name' Hn. injection Hn as <-.
      constructor; [exact I | exact F].
  - exists [Asked (py "Project name: ")]. split; [reflexivity|].
    intros name' Hn. discriminate Hn.
Qed.

End Runs.

Lemma run_within_footprint_witness :
  exists evs,
    trace (snd (main ready_machine [] [] [] [] [] [] [] [] boot)) =
    trace boot ++ evs /\
    Forall (in_footprint ready_machine [] (py "blog")) evs.
Proof.
  destruct (run_within_footprint ready_machine [] [] [] [] [] [] [] [] boot)
    as (evs & T & F).
  exists evs. split; [exact T|]. apply F. reflexivity.
Defined.

End Footprint.
